(** * react-native-sensors: step calculator and sensor adapters

    A shallow embedding of [StepCalculator.ts], [ExpoPedometerAdapter.ts] and
    [MockSensorAdapter.ts].

    Conventions of the embedding:
    - a JavaScript [number] is an exact rational or one of [NaN], [Infinity],
      [-Infinity]; binary64 rounding of the arithmetic is not modelled (integer
      arithmetic is exact on safe integers, which is where the adapters use
      it), and there is no negative zero;
    - a JavaScript string is a list of characters;
    - a [Date] is its time value, the milliseconds since the epoch, read in a
      time zone with a fixed offset;
    - [new Date()], [Math.random()] and the Expo pedometer are oracles of an
      environment, consumed in order through a small state monad. *)

From Stdlib Require Import ZArith QArith Qabs Qround Qreduction.
From Stdlib Require Import List Sorted Ascii String Bool Lia Lqa.
Import ListNotations.

Local Open Scope Z_scope.

(** ** JavaScript numbers *)

Module JS.

Inductive number : Type :=
| Num (q : Q)
| NaN
| PosInf
| NegInf.

(** Finite values are kept reduced, so that equal numbers are equal terms. *)
Definition num (q : Q) : number := Num (Qred q).

Definition ofZ (z : Z) : number := Num (z # 1).

Definition Qsign (q : Q) : comparison := (0 ?= Qnum q).

Definition inf_of (positive : bool) : number :=
  if positive then PosInf else NegInf.

Definition isPos (x : number) : option bool :=
  match x with
  | Num q => match Qsign q with Lt => Some true | Gt => Some false | Eq => None end
  | PosInf => Some true
  | NegInf => Some false
  | NaN => None
  end.

Definition neg (x : number) : number :=
  match x with
  | Num q => num (- q)
  | NaN => NaN
  | PosInf => NegInf
  | NegInf => PosInf
  end.

Definition add (x y : number) : number :=
  match x, y with
  | Num a, Num b => num (a + b)
  | NaN, _ | _, NaN => NaN
  | PosInf, NegInf | NegInf, PosInf => NaN
  | PosInf, _ | _, PosInf => PosInf
  | NegInf, _ | _, NegInf => NegInf
  end.

Definition sub (x y : number) : number := add x (neg y).

Definition mul (x y : number) : number :=
  match x, y with
  | Num a, Num b => num (a * b)
  | NaN, _ | _, NaN => NaN
  | _, _ =>
      match isPos x, isPos y with
      | Some s, Some t => inf_of (Bool.eqb s t)
      | _, _ => NaN
      end
  end.

(** [x / y]: a zero divisor gives an infinity of the sign of [x], or [NaN]
    for [0 / 0]. *)
Definition div (x y : number) : number :=
  match x, y with
  | NaN, _ | _, NaN => NaN
  | Num a, Num b =>
      match Qsign b with
      | Eq => match isPos x with Some s => inf_of s | None => NaN end
      | _ => num (a / b)
      end
  | Num _, _ => Num 0
  | _, Num b =>
      match isPos x, Qsign b with
      | Some s, Gt => inf_of (negb s)
      | Some s, _ => inf_of s
      | None, _ => NaN
      end
  | _, _ => NaN
  end.

Definition floor (x : number) : number :=
  match x with
  | Num q => ofZ (Qfloor q)
  | _ => x
  end.

Definition ceil (x : number) : number :=
  match x with
  | Num q => ofZ (Qceiling q)
  | _ => x
  end.

Definition abs (x : number) : number :=
  match x with
  | Num q => num (Qabs q)
  | NaN => NaN
  | _ => PosInf
  end.

(** [x === y] on numbers: [NaN] equals nothing. *)
Definition strict_eq (x y : number) : bool :=
  match x, y with
  | Num a, Num b => Qeq_bool a b
  | PosInf, PosInf | NegInf, NegInf => true
  | _, _ => false
  end.

(** [x >= y]: false as soon as one side is [NaN]. *)
Definition ge (x y : number) : bool :=
  match x, y with
  | NaN, _ | _, NaN => false
  | Num a, Num b => Qle_bool b a
  | PosInf, _ | _, NegInf => true
  | _, _ => false
  end.

Definition gt (x y : number) : bool :=
  match x, y with
  | NaN, _ | _, NaN => false
  | Num a, Num b => negb (Qle_bool a b)
  | PosInf, PosInf | NegInf, _ | Num _, PosInf => false
  | PosInf, _ | Num _, NegInf => true
  end.

(** [Math.max(x, y)]. *)
Definition max (x y : number) : number :=
  match x, y with
  | NaN, _ | _, NaN => NaN
  | _, _ => if ge x y then x else y
  end.

Definition isFinite (x : number) : bool :=
  match x with Num _ => true | _ => false end.

(** *** Strings *)

Definition jsstring : Type := list ascii.

Definition lit (s : string) : jsstring := list_ascii_of_string s.

Definition digit_char (d : Z) : ascii := ascii_of_N (Z.to_N (48 + d)).

Definition digit_val (c : ascii) : option Z :=
  let n := Z.of_N (N_of_ascii c) in
  if (48 <=? n) && (n <=? 57) then Some (n - 48) else None.

Fixpoint digits_aux (fuel : nat) (n : Z) : jsstring :=
  match fuel with
  | O => []
  | S f =>
      if n <? 10 then [digit_char n]
      else digits_aux f (n / 10) ++ [digit_char (n mod 10)]
  end.

(** The decimal digits of a natural number, most significant first; ["0"]
    for zero. The fuel is the number of binary digits, which is enough. *)
Definition digits (n : Z) : jsstring :=
  digits_aux (S (Z.to_nat (Z.log2 n))) n.

(** [String(z)] (also a template literal's [${z}]) for an integer [z]. *)
Definition string_of_int (z : Z) : jsstring :=
  if z <? 0 then lit "-" ++ digits (- z) else digits z.

(** [Number.prototype.toFixed(f)]: sign, then the integer [n] nearest to
    [x * 10^f] (the larger one on a tie), written in decimal, padded with zeros
    on the left up to [f + 1] digits, with a point before the last [f] digits.
    (For [x >= 10^21] JavaScript switches to its exponent notation; the digits
    differ there, the number read back by [parseFloat] does not.) *)
Definition toFixed (x : number) (f : nat) : jsstring :=
  match x with
  | NaN => lit "NaN"
  | PosInf => lit "Infinity"
  | NegInf => lit "-Infinity"
  | Num q =>
      let s := if Qle_bool 0 q then [] else lit "-" in
      let x := if Qle_bool 0 q then q else Qopp q in
      let n := Qfloor (x * inject_Z (10 ^ Z.of_nat f) + (1 # 2)) in
      let m := digits n in
      if Nat.eqb f 0 then s ++ m
      else
        let k := List.length m in
        let m := if Nat.leb k f then repeat "0"%char (f + 1 - k) ++ m else m in
        let k := List.length m in
        let a := firstn (k - f) m in
        let b := skipn (k - f) m in
        s ++ a ++ lit "." ++ b
  end.

(** Reads decimal digits: the value accumulated, how many digits were read,
    and the rest of the input. *)
Fixpoint take_digits (acc : Z) (count : nat) (s : jsstring)
  : Z * nat * jsstring :=
  match s with
  | [] => (acc, count, [])
  | c :: r =>
      match digit_val c with
      | Some d => take_digits (acc * 10 + d) (S count) r
      | None => (acc, count, s)
      end
  end.

Definition is_white (c : ascii) : bool :=
  let n := N_of_ascii c in
  ((n =? 32) || ((9 <=? n) && (n <=? 13)))%N.

Fixpoint trim_start (s : jsstring) : jsstring :=
  match s with
  | c :: r => if is_white c then trim_start r else s
  | [] => []
  end.

Fixpoint starts_with (p s : jsstring) : bool :=
  match p, s with
  | [], _ => true
  | a :: p', b :: s' => Ascii.eqb a b && starts_with p' s'
  | _ :: _, [] => false
  end.

(** An optional sign. *)
Definition parse_sign (s : jsstring) : bool * jsstring :=
  match s with
  | "-"%char :: r => (true, r)
  | "+"%char :: r => (false, r)
  | _ => (false, s)
  end.

(** [Infinity], or the longest run of digits with an optional fraction;
    [NaN] when no digit is found. *)
Definition parse_decimal (negative : bool) (s : jsstring) : number :=
  if starts_with (lit "Infinity") s then inf_of (negb negative)
  else
    let '(ip, ni, r1) := take_digits 0 0 s in
    let '(fp, nf, _) :=
      match r1 with
      | "."%char :: r => take_digits 0 0 r
      | _ => (0, 0%nat, r1)
      end in
    if Nat.eqb (ni + nf) 0 then NaN
    else
      let v := (inject_Z ip + inject_Z fp / inject_Z (10 ^ Z.of_nat nf))%Q in
      num (if negative then Qopp v else v).

(** [parseFloat]: leading white space, an optional sign, then the number.
    What follows the number is ignored. (An exponent part is not read:
    [toFixed] writes none.) *)
Definition parseFloat (s : jsstring) : number :=
  let '(negative, s) := parse_sign (trim_start s) in
  parse_decimal negative s.

End JS.

Import JS.

Declare Scope js_scope.
Delimit Scope js_scope with js.
Infix "*" := JS.mul : js_scope.
Infix "/" := JS.div : js_scope.
Infix "+" := JS.add : js_scope.
Infix "-" := JS.sub : js_scope.

(** ** StepCalculator.ts *)

Module StepCalculator.

Definition DEFAULT_STRIDE_LENGTH : number := num (76 # 100).
Definition DEFAULT_WEIGHT_KG : number := ofZ 70.
Definition DEFAULT_STEPS_PER_MINUTE : number := ofZ 120.
Definition CALORIES_PER_1000_STEPS : number := ofZ 45.

(** A parameter with a default value: [None] is the argument left out. *)
Definition or_default (arg : option number) (d : number) : number :=
  match arg with Some v => v | None => d end.

Definition calculateDistance (steps : number) (strideLength : option number)
  : number :=
  let strideLength := or_default strideLength DEFAULT_STRIDE_LENGTH in
  let distanceMeters := (steps * strideLength)%js in
  let distanceKm := (distanceMeters / ofZ 1000)%js in
  parseFloat (toFixed distanceKm 2).

Definition calculateCalories (steps : number) (weightKg : option number)
  : number :=
  let weightKg := or_default weightKg DEFAULT_WEIGHT_KG in
  let weightFactor := (weightKg / DEFAULT_WEIGHT_KG)%js in
  let baseCalories := ((steps / ofZ 1000) * CALORIES_PER_1000_STEPS)%js in
  let adjustedCalories := (baseCalories * weightFactor)%js in
  JS.floor adjustedCalories.

Definition calculateActiveMinutes (steps : number)
  (stepsPerMinute : option number) : number :=
  let stepsPerMinute := or_default stepsPerMinute DEFAULT_STEPS_PER_MINUTE in
  JS.floor (steps / stepsPerMinute)%js.

Definition stepsForDistance (distanceKm : number)
  (strideLength : option number) : number :=
  let strideLength := or_default strideLength DEFAULT_STRIDE_LENGTH in
  let distanceMeters := (distanceKm * ofZ 1000)%js in
  JS.ceil (distanceMeters / strideLength)%js.

Definition stepsForCalories (calories : number) (weightKg : option number)
  : number :=
  let weightKg := or_default weightKg DEFAULT_WEIGHT_KG in
  let weightFactor := (weightKg / DEFAULT_WEIGHT_KG)%js in
  let steps :=
    (((calories / CALORIES_PER_1000_STEPS) / weightFactor) * ofZ 1000)%js in
  JS.ceil steps.

Definition calculatePace (steps minutes : number) : number :=
  if strict_eq minutes (ofZ 0) then ofZ 0
  else JS.floor (steps / minutes)%js.

End StepCalculator.

(** ** Dates, in a time zone of fixed offset *)

Module Date.

(** The time value of a [Date]: milliseconds since the epoch. *)
Definition t : Type := Z.

Definition msPerDay : Z := 86400000.
Definition msPerHour : Z := 3600000.
Definition msPerMinute : Z := 60000.
Definition msPerSecond : Z := 1000.

Section Zone.

(** Local time is UTC plus [tz] milliseconds, all year round (no daylight
    saving), and years are written with four digits. *)
Variable tz : Z.

(** The local calendar day of a date, counted from the epoch. The adapters
    read [getFullYear()], [getMonth()] and [getDate()] only to hand the three
    of them back to the [Date] constructor, so the day number stands for the
    triple. *)
Definition localDay (d : t) : Z := (d + tz) / msPerDay.

Definition getHours (d : t) : Z := ((d + tz) mod msPerDay) / msPerHour.

(** [getDay()]: 0 is Sunday; the epoch was a Thursday. *)
Definition getDay (d : t) : Z := (localDay d + 4) mod 7.

Definition makeLocal (day h m s ms : Z) : t :=
  day * msPerDay + h * msPerHour + m * msPerMinute + s * msPerSecond + ms - tz.

(** [new Date(d.getFullYear(), d.getMonth(), d.getDate(), h, m, s)]. *)
Definition atTime (d : t) (h m s : Z) : t := makeLocal (localDay d) h m s 0.

(** [d.setDate(d.getDate() + n)]: the same time of day, [n] days later. *)
Definition addDays (d : t) (n : Z) : t := d + n * msPerDay.

(** [d.setHours(h, m, s, ms)]. *)
Definition setHours (d : t) (h m s ms : Z) : t :=
  makeLocal (localDay d) h m s ms.

End Zone.

End Date.

(** ** Entities: StepData.ts, SensorReading.ts *)

Inductive Source : Type := pedometer | healthkit | googlefit | mock.

Module StepData.
Record t : Type := mk {
  id : jsstring;
  steps : number;
  distance : number;
  calories : number;
  activeMinutes : number;
  startDate : Date.t;
  endDate : Date.t;
  source : Source
}.
End StepData.

Module HourlyStepData.
Record t : Type := mk {
  hour : number;
  steps : number;
  timestamp : Date.t
}.
End HourlyStepData.

(** [DailyStepData extends StepData]. *)
Module DailyStepData.
Record t : Type := mk {
  base : StepData.t;
  hourlyData : list HourlyStepData.t;
  goalMet : bool;
  goalTarget : number
}.
End DailyStepData.

Module StepUpdate.
Record t : Type := mk {
  steps : number;
  timestamp : Date.t;
  stepsSinceLastUpdate : option number
}.
End StepUpdate.

Module SensorType.
Inductive t : Type := pedometer | accelerometer | healthkit | googlefit.
End SensorType.

Module SensorAvailability.
Record t : Type := mk {
  isAvailable : bool;
  sensorType : option SensorType.t;
  error : option jsstring
}.
End SensorAvailability.

Inductive PermissionStatus : Type := granted | denied | undetermined.

Module SensorPermission.
Record t : Type := mk {
  granted : bool;
  canAskAgain : bool;
  status : PermissionStatus
}.
End SensorPermission.

(** ** The environment and its monad *)

(** What [Pedometer.getStepCountAsync] does: it rejects, resolves to [null],
    or resolves to [{ steps }]. *)
Inductive QueryResult : Type :=
| Throws
| Null
| Steps (steps : number).

(** [result?.steps ?? 0], for a [result] that was resolved. *)
Definition stepsOrZero (result : QueryResult) : number :=
  match result with
  | Steps n => n
  | _ => ofZ 0
  end.

(** What [Pedometer.isAvailableAsync] does: it resolves to a boolean, or it
    rejects, with an [Error] that has a message or with something else. *)
Inductive ProbeResult : Type :=
| Resolves (available : bool)
| RejectsError (message : jsstring)
| RejectsOther.

Record Env : Type := {
  tz : Z;
  clock : nat -> Date.t;
  random : nat -> Q;
  stepCountAsync : nat -> Date.t -> Date.t -> QueryResult
}.

(** How many times each oracle has been consulted. *)
Record World : Type := {
  clockReads : nat;
  randomDraws : nat;
  queries : nat
}.

Definition M (A : Type) : Type := World -> A * World.

Definition ret {A} (a : A) : M A := fun w => (a, w).

Definition bind {A B} (m : M A) (k : A -> M B) : M B :=
  fun w => let (a, w') := m w in k a w'.

Notation "x <- m ;; k" := (bind m (fun x => k))
  (at level 61, m at next level, right associativity).

Fixpoint mapM {A B} (f : A -> M B) (l : list A) : M (list B) :=
  match l with
  | [] => ret []
  | a :: l' => b <- f a ;; bs <- mapM f l' ;; ret (b :: bs)
  end.

(** The values [i] takes in [for (let i = 0; i < n; i++)]. *)
Definition range (n : Z) : list Z := map Z.of_nat (seq 0 (Z.to_nat n)).

Section Effects.

Variable env : Env.

(** [new Date()]. *)
Definition newDate : M Date.t :=
  fun w => (clock env (clockReads w),
            {| clockReads := S (clockReads w);
               randomDraws := randomDraws w;
               queries := queries w |}).

(** [Math.random()]. *)
Definition mathRandom : M number :=
  fun w => (num (random env (randomDraws w)),
            {| clockReads := clockReads w;
               randomDraws := S (randomDraws w);
               queries := queries w |}).

(** [await Pedometer.getStepCountAsync(start, end)]. *)
Definition getStepCountAsync (startDate endDate : Date.t) : M QueryResult :=
  fun w => (stepCountAsync env (queries w) startDate endDate,
            {| clockReads := clockReads w;
               randomDraws := randomDraws w;
               queries := S (queries w) |}).

End Effects.

(** The callback handed to [startStepCounting], by name; calling it with an
    update is recorded as an emission. *)
Definition Callback : Type := nat.

Definition Emission : Type := (Callback * StepUpdate.t)%type.

(** ** ExpoPedometerAdapter.ts *)

Module ExpoPedometerAdapter.

Section Queries.

Variable env : Env.

Definition getStepCount (startDate endDate : Date.t) : M StepData.t :=
  result <- getStepCountAsync env startDate endDate ;;
  match result with
  | Throws =>
      ret {| StepData.id := string_of_int startDate ++ lit "-" ++ string_of_int endDate;
             StepData.steps := ofZ 0;
             StepData.distance := ofZ 0;
             StepData.calories := ofZ 0;
             StepData.activeMinutes := ofZ 0;
             StepData.startDate := startDate;
             StepData.endDate := endDate;
             StepData.source := pedometer |}
  | _ =>
      let steps := stepsOrZero result in
      ret {| StepData.id := string_of_int startDate ++ lit "-" ++ string_of_int endDate;
             StepData.steps := steps;
             StepData.distance := StepCalculator.calculateDistance steps None;
             StepData.calories := StepCalculator.calculateCalories steps None;
             StepData.activeMinutes := StepCalculator.calculateActiveMinutes steps None;
             StepData.startDate := startDate;
             StepData.endDate := endDate;
             StepData.source := pedometer |}
  end.

Definition getTodaySteps : M StepData.t :=
  today <- newDate env ;;
  let startOfDay := Date.atTime (tz env) today 0 0 0 in
  now <- newDate env ;;
  getStepCount startOfDay now.

Definition getHourlyBreakdown (startOfDay endOfDay : Date.t)
  : M (list HourlyStepData.t) :=
  mapM (fun hour =>
          let hourStart := Date.setHours (tz env) startOfDay hour 0 0 0 in
          let hourEnd := Date.setHours (tz env) startOfDay hour 59 59 999 in
          result <- getStepCountAsync env hourStart hourEnd ;;
          match result with
          | Throws =>
              ret {| HourlyStepData.hour := ofZ hour;
                     HourlyStepData.steps := ofZ 0;
                     HourlyStepData.timestamp := hourStart |}
          | _ =>
              ret {| HourlyStepData.hour := ofZ hour;
                     HourlyStepData.steps := stepsOrZero result;
                     HourlyStepData.timestamp := hourStart |}
          end)
       (range 24).

Definition getHistoricalSteps (days : Z) : M (list DailyStepData.t) :=
  today <- newDate env ;;
  historicalData <-
    mapM (fun i =>
            let date := Date.addDays today (- i) in
            let startOfDay := Date.atTime (tz env) date 0 0 0 in
            let endOfDay := Date.atTime (tz env) date 23 59 59 in
            dayData <- getStepCount startOfDay endOfDay ;;
            let goalTarget := ofZ 10000 in
            hourlyData <- getHourlyBreakdown startOfDay endOfDay ;;
            ret {| DailyStepData.base := dayData;
                   DailyStepData.hourlyData := hourlyData;
                   DailyStepData.goalMet := JS.ge (StepData.steps dayData) goalTarget;
                   DailyStepData.goalTarget := goalTarget |})
         (range days) ;;
  ret (rev historicalData).

End Queries.

(** *** The subscription *)

Definition Handle : Type := nat.

(** The instance fields. *)
Record State : Type := {
  subscription : option Handle;
  lastStepCount : number
}.

(** One adapter instance together with the listeners it has registered with
    [Pedometer.watchStepCount] and not removed. *)
Record System : Type := {
  this : State;
  listeners : list (Handle * Callback);
  nextHandle : Handle
}.

Definition init : System :=
  {| this := {| subscription := None; lastStepCount := ofZ 0 |};
     listeners := [];
     nextHandle := O |}.

(** [subscription.remove()]. *)
Definition remove (h : Handle) (l : list (Handle * Callback))
  : list (Handle * Callback) :=
  filter (fun e => negb (Nat.eqb (fst e) h)) l.

Definition startStepCounting (callback : Callback) (s : System) : System :=
  let l :=
    match subscription (this s) with
    | Some h => remove h (listeners s)
    | None => listeners s
    end in
  {| this := {| subscription := Some (nextHandle s);
                lastStepCount := lastStepCount (this s) |};
     listeners := l ++ [(nextHandle s, callback)];
     nextHandle := S (nextHandle s) |}.

(** The function [startStepCounting] returns. *)
Definition cleanup (s : System) : System :=
  match subscription (this s) with
  | Some h =>
      {| this := {| subscription := None;
                    lastStepCount := lastStepCount (this s) |};
         listeners := remove h (listeners s);
         nextHandle := nextHandle s |}
  | None => s
  end.

Definition stopStepCounting (s : System) : System :=
  let l :=
    match subscription (this s) with
    | Some h => remove h (listeners s)
    | None => listeners s
    end in
  {| this := {| subscription := None; lastStepCount := ofZ 0 |};
     listeners := l;
     nextHandle := nextHandle s |}.

Section Notifications.

Variable env : Env.

(** The listener [startStepCounting] registers, called with [result.steps]. *)
Definition listener (callback : Callback) (steps : number) (st : State)
  : M (Emission * State) :=
  let stepsSinceLastUpdate := (steps - lastStepCount st)%js in
  now <- newDate env ;;
  ret ((callback,
        {| StepUpdate.steps := steps;
           StepUpdate.timestamp := now;
           StepUpdate.stepsSinceLastUpdate :=
             if JS.gt stepsSinceLastUpdate (ofZ 0)
             then Some stepsSinceLastUpdate else None |}),
       {| subscription := subscription st; lastStepCount := steps |}).

Fixpoint notifyAll (l : list (Handle * Callback)) (steps : number) (st : State)
  : M (list Emission * State) :=
  match l with
  | [] => ret ([], st)
  | (_, callback) :: l' =>
      r <- listener callback steps st ;;
      rs <- notifyAll l' steps (snd r) ;;
      ret (fst r :: fst rs, snd rs)
  end.

(** The pedometer reports a cumulative count: every registered listener is
    called with it. *)
Definition notify (steps : number) (s : System) : M (list Emission * System) :=
  r <- notifyAll (listeners s) steps (this s) ;;
  ret (fst r, {| this := snd r;
                 listeners := listeners s;
                 nextHandle := nextHandle s |}).

End Notifications.

(** *** Availability and permissions

    [probe] is what [await Pedometer.isAvailableAsync()] does in this call. *)

Definition isAvailable (probe : ProbeResult) : SensorAvailability.t :=
  match probe with
  | Resolves available =>
      {| SensorAvailability.isAvailable := available;
         SensorAvailability.sensorType :=
           if available then Some SensorType.pedometer else None;
         SensorAvailability.error :=
           if available then None
           else Some (lit "Pedometer not available on this device") |}
  | RejectsError message =>
      {| SensorAvailability.isAvailable := false;
         SensorAvailability.sensorType := None;
         SensorAvailability.error := Some message |}
  | RejectsOther =>
      {| SensorAvailability.isAvailable := false;
         SensorAvailability.sensorType := None;
         SensorAvailability.error := Some (lit "Unknown error") |}
  end.

Definition requestPermissions (probe : ProbeResult) : SensorPermission.t :=
  let availability := isAvailable probe in
  if negb (SensorAvailability.isAvailable availability) then
    {| SensorPermission.granted := false;
       SensorPermission.canAskAgain := false;
       SensorPermission.status := denied |}
  else
    {| SensorPermission.granted := true;
       SensorPermission.canAskAgain := true;
       SensorPermission.status := granted |}.

End ExpoPedometerAdapter.

(** ** MockSensorAdapter.ts *)

Module MockSensorAdapter.

(** The table of [generateRealisticDailySteps]. *)
Definition stepsPerHour : list number :=
  map ofZ
    [100; 100; 50; 50; 50; 200;
     800; 1200;
     1500; 1200; 800; 600;
     1000;
     500; 400; 400; 500;
     1200; 1500;
     800; 600; 400; 200;
     100; 100].

(** The loop [for (let hour = 0; hour <= currentHour && hour < 24; hour++)
    totalSteps += stepsPerHour[hour] || 0], run for at most [fuel] rounds. *)
Fixpoint sumHours (fuel : nat) (currentHour : Z) (hour : Z) (totalSteps : number)
  : number :=
  match fuel with
  | O => totalSteps
  | S f =>
      if (hour <=? currentHour) && (hour <? 24) then
        sumHours f currentHour (hour + 1)
          (totalSteps + nth (Z.to_nat hour) stepsPerHour (ofZ 0))%js
      else totalSteps
  end.

(** The loop leaves after 24 rounds at the latest. *)
Definition generateRealisticDailySteps (currentHour : Z) : number :=
  sumHours 24 currentHour 0 (ofZ 0).

(** The table of [generateHourlyData]. *)
Definition distribution : list number :=
  map num
    [1 # 100; 1 # 100; 1 # 100; 1 # 100; 1 # 100; 2 # 100;
     8 # 100; 12 # 100;
     15 # 100; 12 # 100; 8 # 100; 6 # 100;
     10 # 100;
     5 # 100; 4 # 100; 4 # 100; 5 # 100;
     12 # 100; 15 # 100;
     8 # 100; 6 # 100; 4 # 100; 2 # 100;
     1 # 100; 1 # 100]%Q.

Section Queries.

Variable env : Env.

(** [distribution.map((percentage, hour) => ...)]. *)
Definition generateHourlyData (totalSteps : number)
  : M (list HourlyStepData.t) :=
  mapM (fun '(percentage, hour) =>
          now <- newDate env ;;
          ret {| HourlyStepData.hour := ofZ hour;
                 HourlyStepData.steps := JS.floor (totalSteps * percentage)%js;
                 HourlyStepData.timestamp :=
                   Date.setHours (tz env) now hour 0 0 0 |})
       (combine distribution (range (Z.of_nat (List.length distribution)))).

Definition getStepCount (startDate endDate : Date.t) : M StepData.t :=
  let hours :=
    (JS.abs (ofZ endDate - ofZ startDate) / ofZ (1000 * 60 * 60))%js in
  let baseSteps := JS.floor (hours * ofZ 400)%js in
  r <- mathRandom env ;;
  let variation := (JS.floor (r * ofZ 200) - ofZ 100)%js in
  let steps := JS.max (ofZ 0) (baseSteps + variation)%js in
  ret {| StepData.id :=
           lit "mock-" ++ string_of_int startDate ++ lit "-" ++ string_of_int endDate;
         StepData.steps := steps;
         StepData.distance := StepCalculator.calculateDistance steps None;
         StepData.calories := StepCalculator.calculateCalories steps None;
         StepData.activeMinutes := StepCalculator.calculateActiveMinutes steps None;
         StepData.startDate := startDate;
         StepData.endDate := endDate;
         StepData.source := mock |}.

Definition getTodaySteps : M StepData.t :=
  now <- newDate env ;;
  let startOfDay := Date.atTime (tz env) now 0 0 0 in
  let hour := Date.getHours (tz env) now in
  let steps := generateRealisticDailySteps hour in
  ret {| StepData.id := lit "mock-today-" ++ string_of_int now;
         StepData.steps := steps;
         StepData.distance := StepCalculator.calculateDistance steps None;
         StepData.calories := StepCalculator.calculateCalories steps None;
         StepData.activeMinutes := StepCalculator.calculateActiveMinutes steps None;
         StepData.startDate := startOfDay;
         StepData.endDate := now;
         StepData.source := mock |}.

Definition getHistoricalSteps (days : Z) : M (list DailyStepData.t) :=
  today <- newDate env ;;
  historicalData <-
    mapM (fun i =>
            let date := Date.addDays today (- i) in
            let startOfDay := Date.atTime (tz env) date 0 0 0 in
            let endOfDay := Date.atTime (tz env) date 23 59 59 in
            let isWeekend :=
              (Date.getDay (tz env) date =? 0) || (Date.getDay (tz env) date =? 6) in
            r <- mathRandom env ;;
            let baseSteps :=
              if isWeekend
              then (JS.floor (r * ofZ 11000) + ofZ 4000)%js
              else (JS.floor (r * ofZ 5000) + ofZ 7000)%js in
            let steps := baseSteps in
            let goalTarget := ofZ 10000 in
            hourlyData <- generateHourlyData steps ;;
            ret {| DailyStepData.base :=
                     {| StepData.id := lit "mock-" ++ string_of_int date;
                        StepData.steps := steps;
                        StepData.distance := StepCalculator.calculateDistance steps None;
                        StepData.calories := StepCalculator.calculateCalories steps None;
                        StepData.activeMinutes :=
                          StepCalculator.calculateActiveMinutes steps None;
                        StepData.startDate := startOfDay;
                        StepData.endDate := endOfDay;
                        StepData.source := mock |};
                   DailyStepData.hourlyData := hourlyData;
                   DailyStepData.goalMet := JS.ge steps goalTarget;
                   DailyStepData.goalTarget := goalTarget |})
         (range days) ;;
  ret (rev historicalData).

End Queries.

(** *** The subscription *)

Definition TimerId : Type := nat.

(** The instance fields. *)
Record State : Type := {
  intervalId : option TimerId;
  currentSteps : number;
  isRunning : bool
}.

(** One adapter instance together with the timers it has set with
    [setInterval] and not cleared. A timer id is never falsy ([setInterval]
    returns a positive integer or a [Timeout] object), so [if (this.intervalId)]
    asks whether the field is set. *)
Record System : Type := {
  this : State;
  timers : list (TimerId * Callback);
  nextTimer : TimerId
}.

Definition init : System :=
  {| this := {| intervalId := None; currentSteps := ofZ 0; isRunning := false |};
     timers := [];
     nextTimer := 1%nat |}.

Definition clearInterval (i : TimerId) (l : list (TimerId * Callback))
  : list (TimerId * Callback) :=
  filter (fun e => negb (Nat.eqb (fst e) i)) l.

Definition stopStepCounting (s : System) : System :=
  let l :=
    match intervalId (this s) with
    | Some i => clearInterval i (timers s)
    | None => timers s
    end in
  {| this := {| intervalId := None; currentSteps := ofZ 0; isRunning := false |};
     timers := l;
     nextTimer := nextTimer s |}.

Definition startStepCounting (callback : Callback) (s : System) : System :=
  let s := if isRunning (this s) then stopStepCounting s else s in
  {| this := {| intervalId := Some (nextTimer s);
                currentSteps := ofZ 0;
                isRunning := true |};
     timers := timers s ++ [(nextTimer s, callback)];
     nextTimer := S (nextTimer s) |}.

(** The function [startStepCounting] returns. *)
Definition cleanup (s : System) : System := stopStepCounting s.

Section Timers.

Variable env : Env.

(** The function given to [setInterval]. *)
Definition onInterval (callback : Callback) (st : State)
  : M (Emission * State) :=
  r <- mathRandom env ;;
  let newSteps := (JS.floor (r * ofZ 5) + ofZ 1)%js in
  let total := (currentSteps st + newSteps)%js in
  now <- newDate env ;;
  ret ((callback,
        {| StepUpdate.steps := total;
           StepUpdate.timestamp := now;
           StepUpdate.stepsSinceLastUpdate := Some newSteps |}),
       {| intervalId := intervalId st;
          currentSteps := total;
          isRunning := isRunning st |}).

Fixpoint fireAll (l : list (TimerId * Callback)) (st : State)
  : M (list Emission * State) :=
  match l with
  | [] => ret ([], st)
  | (_, callback) :: l' =>
      r <- onInterval callback st ;;
      rs <- fireAll l' (snd r) ;;
      ret (fst r :: fst rs, snd rs)
  end.

(** Three seconds pass: every timer that is set fires once. *)
Definition tick (s : System) : M (list Emission * System) :=
  r <- fireAll (timers s) (this s) ;;
  ret (fst r, {| this := snd r; timers := timers s; nextTimer := nextTimer s |}).

End Timers.

(** *** Availability and permissions *)

Definition isAvailable : SensorAvailability.t :=
  {| SensorAvailability.isAvailable := true;
     SensorAvailability.sensorType := Some SensorType.pedometer;
     SensorAvailability.error := None |}.

Definition requestPermissions : SensorPermission.t :=
  {| SensorPermission.granted := true;
     SensorPermission.canAskAgain := true;
     SensorPermission.status := granted |}.

End MockSensorAdapter.


(** ** useStepCounter.ts

    The hook's state cells, its two refs, and the outside it talks to. A
    callback of the hook is a function of the values it captured in the render
    that created it and of the current cells and refs; a state setter writes
    the cell. Calls are atomic, as for the adapters. *)

Module UseStepCounter.

(** The pedometer of the device: the step oracles of [Env] and what
    [Pedometer.isAvailableAsync] does on each call. *)
Record Host : Type := {
  env : Env;
  isAvailableAsync : nat -> ProbeResult
}.

(** The cells of [useState], the refs [sensorService] (with the listeners it
    has registered) and [cleanupFn] (whether it holds a function), and how
    often each oracle has been consulted. *)
Record Hook : Type := {
  steps : number;
  distance : number;
  calories : number;
  activeMinutes : number;
  isCountingSteps : bool;
  isAvailable : bool;
  hasPermission : bool;
  todaySteps : option StepData.t;
  error : option jsstring;
  sensorService : ExpoPedometerAdapter.System;
  cleanupFn : bool;
  world : World;
  probes : nat
}.

(** The first render: the initial values of the cells, a new adapter, no
    cleanup function. *)
Definition initial (w : World) (probed : nat) : Hook :=
  {| steps := ofZ 0;
     distance := ofZ 0;
     calories := ofZ 0;
     activeMinutes := ofZ 0;
     isCountingSteps := false;
     isAvailable := false;
     hasPermission := false;
     todaySteps := None;
     error := None;
     sensorService := ExpoPedometerAdapter.init;
     cleanupFn := false;
     world := w;
     probes := probed |}.

Definition setSteps (v : number) (h : Hook) : Hook :=
  {| steps := v;
     distance := distance h;
     calories := calories h;
     activeMinutes := activeMinutes h;
     isCountingSteps := isCountingSteps h;
     isAvailable := isAvailable h;
     hasPermission := hasPermission h;
     todaySteps := todaySteps h;
     error := error h;
     sensorService := sensorService h;
     cleanupFn := cleanupFn h;
     world := world h;
     probes := probes h |}.

Definition setDistance (v : number) (h : Hook) : Hook :=
  {| steps := steps h;
     distance := v;
     calories := calories h;
     activeMinutes := activeMinutes h;
     isCountingSteps := isCountingSteps h;
     isAvailable := isAvailable h;
     hasPermission := hasPermission h;
     todaySteps := todaySteps h;
     error := error h;
     sensorService := sensorService h;
     cleanupFn := cleanupFn h;
     world := world h;
     probes := probes h |}.

Definition setCalories (v : number) (h : Hook) : Hook :=
  {| steps := steps h;
     distance := distance h;
     calories := v;
     activeMinutes := activeMinutes h;
     isCountingSteps := isCountingSteps h;
     isAvailable := isAvailable h;
     hasPermission := hasPermission h;
     todaySteps := todaySteps h;
     error := error h;
     sensorService := sensorService h;
     cleanupFn := cleanupFn h;
     world := world h;
     probes := probes h |}.

Definition setActiveMinutes (v : number) (h : Hook) : Hook :=
  {| steps := steps h;
     distance := distance h;
     calories := calories h;
     activeMinutes := v;
     isCountingSteps := isCountingSteps h;
     isAvailable := isAvailable h;
     hasPermission := hasPermission h;
     todaySteps := todaySteps h;
     error := error h;
     sensorService := sensorService h;
     cleanupFn := cleanupFn h;
     world := world h;
     probes := probes h |}.

Definition setIsCountingSteps (v : bool) (h : Hook) : Hook :=
  {| steps := steps h;
     distance := distance h;
     calories := calories h;
     activeMinutes := activeMinutes h;
     isCountingSteps := v;
     isAvailable := isAvailable h;
     hasPermission := hasPermission h;
     todaySteps := todaySteps h;
     error := error h;
     sensorService := sensorService h;
     cleanupFn := cleanupFn h;
     world := world h;
     probes := probes h |}.

Definition setIsAvailable (v : bool) (h : Hook) : Hook :=
  {| steps := steps h;
     distance := distance h;
     calories := calories h;
     activeMinutes := activeMinutes h;
     isCountingSteps := isCountingSteps h;
     isAvailable := v;
     hasPermission := hasPermission h;
     todaySteps := todaySteps h;
     error := error h;
     sensorService := sensorService h;
     cleanupFn := cleanupFn h;
     world := world h;
     probes := probes h |}.

Definition setHasPermission (v : bool) (h : Hook) : Hook :=
  {| steps := steps h;
     distance := distance h;
     calories := calories h;
     activeMinutes := activeMinutes h;
     isCountingSteps := isCountingSteps h;
     isAvailable := isAvailable h;
     hasPermission := v;
     todaySteps := todaySteps h;
     error := error h;
     sensorService := sensorService h;
     cleanupFn := cleanupFn h;
     world := world h;
     probes := probes h |}.

Definition setTodaySteps (v : option StepData.t) (h : Hook) : Hook :=
  {| steps := steps h;
     distance := distance h;
     calories := calories h;
     activeMinutes := activeMinutes h;
     isCountingSteps := isCountingSteps h;
     isAvailable := isAvailable h;
     hasPermission := hasPermission h;
     todaySteps := v;
     error := error h;
     sensorService := sensorService h;
     cleanupFn := cleanupFn h;
     world := world h;
     probes := probes h |}.

Definition setError (v : option jsstring) (h : Hook) : Hook :=
  {| steps := steps h;
     distance := distance h;
     calories := calories h;
     activeMinutes := activeMinutes h;
     isCountingSteps := isCountingSteps h;
     isAvailable := isAvailable h;
     hasPermission := hasPermission h;
     todaySteps := todaySteps h;
     error := v;
     sensorService := sensorService h;
     cleanupFn := cleanupFn h;
     world := world h;
     probes := probes h |}.

Definition withService (v : ExpoPedometerAdapter.System) (h : Hook) : Hook :=
  {| steps := steps h;
     distance := distance h;
     calories := calories h;
     activeMinutes := activeMinutes h;
     isCountingSteps := isCountingSteps h;
     isAvailable := isAvailable h;
     hasPermission := hasPermission h;
     todaySteps := todaySteps h;
     error := error h;
     sensorService := v;
     cleanupFn := cleanupFn h;
     world := world h;
     probes := probes h |}.

Definition withCleanupFn (v : bool) (h : Hook) : Hook :=
  {| steps := steps h;
     distance := distance h;
     calories := calories h;
     activeMinutes := activeMinutes h;
     isCountingSteps := isCountingSteps h;
     isAvailable := isAvailable h;
     hasPermission := hasPermission h;
     todaySteps := todaySteps h;
     error := error h;
     sensorService := sensorService h;
     cleanupFn := v;
     world := world h;
     probes := probes h |}.

Definition withWorld (v : World) (h : Hook) : Hook :=
  {| steps := steps h;
     distance := distance h;
     calories := calories h;
     activeMinutes := activeMinutes h;
     isCountingSteps := isCountingSteps h;
     isAvailable := isAvailable h;
     hasPermission := hasPermission h;
     todaySteps := todaySteps h;
     error := error h;
     sensorService := sensorService h;
     cleanupFn := cleanupFn h;
     world := v;
     probes := probes h |}.

Definition withProbes (v : nat) (h : Hook) : Hook :=
  {| steps := steps h;
     distance := distance h;
     calories := calories h;
     activeMinutes := activeMinutes h;
     isCountingSteps := isCountingSteps h;
     isAvailable := isAvailable h;
     hasPermission := hasPermission h;
     todaySteps := todaySteps h;
     error := error h;
     sensorService := sensorService h;
     cleanupFn := cleanupFn h;
     world := world h;
     probes := v |}.

(** The callback the hook hands to [startStepCounting]:
    [(update) => setSteps(update.steps)]. *)
Definition hookCallback : Callback := O.

Definition onUpdate (update : StepUpdate.t) (h : Hook) : Hook :=
  setSteps (StepUpdate.steps update) h.

(** What a callback captured of the cells in the render that created it. *)
Record Captured : Type := {
  capturedIsAvailable : bool;
  capturedHasPermission : bool;
  capturedIsCountingSteps : bool
}.

(** The values a callback of the current render captures. *)
Definition render (h : Hook) : Captured :=
  {| capturedIsAvailable := isAvailable h;
     capturedHasPermission := hasPermission h;
     capturedIsCountingSteps := isCountingSteps h |}.

(** The values the callbacks of the first render captured. *)
Definition firstRender : Captured :=
  {| capturedIsAvailable := false;
     capturedHasPermission := false;
     capturedIsCountingSteps := false |}.

Section Callbacks.

Variable host : Host.

(** [await sensorService.current.isAvailable()]. *)
Definition probe (h : Hook) : SensorAvailability.t * Hook :=
  (ExpoPedometerAdapter.isAvailable (isAvailableAsync host (probes h)),
   withProbes (S (probes h)) h).

(** [await sensorService.current.requestPermissions()]. *)
Definition askPermission (h : Hook) : SensorPermission.t * Hook :=
  (ExpoPedometerAdapter.requestPermissions (isAvailableAsync host (probes h)),
   withProbes (S (probes h)) h).

(** [refreshData]; [getTodaySteps] does not throw, so the [catch] is not
    taken. *)
Definition refreshData (h : Hook) : Hook :=
  let (data, w) := ExpoPedometerAdapter.getTodaySteps (env host) (world h) in
  let h := withWorld w h in
  let h := setTodaySteps (Some data) h in
  let h := setSteps (StepData.steps data) h in
  let h := setDistance (StepData.distance data) h in
  let h := setCalories (StepData.calories data) h in
  let h := setActiveMinutes (StepData.activeMinutes data) h in
  setError None h.

Definition startCounting (c : Captured) (h : Hook) : Hook :=
  if negb (capturedIsAvailable c) || negb (capturedHasPermission c) then
    setError (Some (lit "Sensor not available or permission not granted")) h
  else if capturedIsCountingSteps c then h
  else
    let h :=
      withService
        (ExpoPedometerAdapter.startStepCounting hookCallback (sensorService h)) h in
    let h := withCleanupFn true h in
    let h := setIsCountingSteps true h in
    setError None h.

Definition stopCounting (h : Hook) : Hook :=
  let h :=
    withService (ExpoPedometerAdapter.stopStepCounting (sensorService h)) h in
  let h :=
    if cleanupFn h then
      withCleanupFn false
        (withService (ExpoPedometerAdapter.cleanup (sensorService h)) h)
    else h in
  setIsCountingSteps false h.

(** The [requestPermissions] the hook returns: the answer and the new
    state. *)
Definition requestPermissions (h : Hook) : bool * Hook :=
  let (permission, h) := askPermission h in
  (SensorPermission.granted permission,
   setHasPermission (SensorPermission.granted permission) h).

(** [availability.error || 'Sensor not available']. *)
Definition errorOr (e : option jsstring) (d : jsstring) : jsstring :=
  match e with
  | Some (c :: r) => c :: r
  | _ => d
  end.

(** [checkAvailability], the body of the effect that runs on mount. It is
    created in the first render, so the [refreshData] and the [startCounting]
    it calls are the first render's. *)
Definition checkAvailability (autoStart : bool) (h : Hook) : Hook :=
  let (availability, h) := probe h in
  let h := setIsAvailable (SensorAvailability.isAvailable availability) h in
  if negb (SensorAvailability.isAvailable availability) then
    setError
      (Some (errorOr (SensorAvailability.error availability)
               (lit "Sensor not available"))) h
  else
    let (permission, h) := askPermission h in
    let h := setHasPermission (SensorPermission.granted permission) h in
    if negb (SensorPermission.granted permission) then
      setError (Some (lit "Permission not granted")) h
    else
      let h := refreshData h in
      if autoStart then startCounting firstRender h else h.

(** The cleanup of the effect, run on unmount. *)
Definition unmount (h : Hook) : Hook :=
  if cleanupFn h then
    withService (ExpoPedometerAdapter.cleanup (sensorService h)) h
  else h.

(** The pedometer reports a count: the adapter calls its listeners, and each
    update reaches the hook's callback. *)
Definition notified (count : number) (h : Hook) : Hook :=
  let '(emissions, service, w) :=
    ExpoPedometerAdapter.notify (env host) count (sensorService h) (world h) in
  let h := withWorld w (withService service h) in
  fold_left (fun h e => onUpdate (snd e) h) emissions h.

End Callbacks.

End UseStepCounter.

(** ** Definitions the properties are stated with *)

Definition is_digit (c : ascii) : Prop := exists d, digit_val c = Some d.

(** The number a string of digits denotes; a character that is no digit
    counts as zero. *)
Definition dval (l : jsstring) : Z :=
  fold_left (fun a c => a * 10 + match digit_val c with Some d => d | None => 0 end) l 0.

Definition no_digit_ahead (s : jsstring) : Prop :=
  match s with
  | [] => True
  | c :: _ => digit_val c = None
  end.

(** Rounding to [f] decimals, a tie going away from zero: the magnitude in
    units of [10^-f], and the rounded value. *)
Definition half_away_units (q : Q) (f : nat) : Z :=
  Qfloor (Qabs q * inject_Z (10 ^ Z.of_nat f) + (1 # 2)).

Definition round_half_away (q : Q) (f : nat) : Q :=
  let n := inject_Z (half_away_units q f) in
  (if Qle_bool 0 q then n else - n) / inject_Z (10 ^ Z.of_nat f).

(** The world after [k] more pedometer queries. *)
Definition afterQueries (k : nat) (w : World) : World :=
  {| clockReads := clockReads w;
     randomDraws := randomDraws w;
     queries := queries w + k |}.

(** The world after [k] more readings of the clock. *)
Definition afterClockReads (k : nat) (w : World) : World :=
  {| clockReads := clockReads w + k;
     randomDraws := randomDraws w;
     queries := queries w |}.


(** The sum of the hourly steps of a breakdown. *)
Definition sumSteps (l : list HourlyStepData.t) : number :=
  fold_left (fun acc h => (acc + HourlyStepData.steps h)%js) l (ofZ 0).

(** The record [ExpoPedometerAdapter.getStepCount] returns when the query
    fails. *)
Definition zeroStepData (startDate endDate : Date.t) : StepData.t :=
  {| StepData.id := string_of_int startDate ++ lit "-" ++ string_of_int endDate;
     StepData.steps := ofZ 0;
     StepData.distance := ofZ 0;
     StepData.calories := ofZ 0;
     StepData.activeMinutes := ofZ 0;
     StepData.startDate := startDate;
     StepData.endDate := endDate;
     StepData.source := pedometer |}.

(** *** A sample environment

    The clock stands at Tuesday 14 November 2023, 22:13:20 UTC, every random
    draw is 0.6, and the pedometer fails on every third query. *)
Definition sampleEnv : Env :=
  {| tz := 0;
     clock := fun _ => 1700000000000;
     random := fun _ => 3 # 5;
     stepCountAsync := fun k _ _ =>
       if Nat.eqb (k mod 3) 2 then Throws
       else Steps (ofZ (Z.of_nat (100 * k))) |}.

(** The same, with a pedometer that never fails. *)
Definition sampleEnvOk : Env :=
  {| tz := 0;
     clock := fun _ => 1700000000000;
     random := fun _ => 3 # 5;
     stepCountAsync := fun k _ _ => Steps (ofZ (Z.of_nat (100 * k))) |}.

Definition startWorld : World :=
  {| clockReads := 0; randomDraws := 0; queries := 0 |}.

(** *** Sequences of calls on one adapter instance

    What happens to an instance: the client calls [startStepCounting],
    [stopStepCounting] or the cleanup function it was given, or the outside
    ticks. For the Expo adapter a tick is the pedometer reporting the
    cumulative count [steps]; for the mock adapter it is three seconds
    passing ([steps] plays no part). *)
Inductive Op : Type :=
| Start (callback : Callback)
| Stop
| Cleanup
| Tick (steps : number).

(** The callback that should be subscribed after a sequence of calls: the
    one of the last [Start], unless a [Stop] or a [Cleanup] came after it. *)
Fixpoint subscriber (ops : list Op) (current : option Callback)
  : option Callback :=
  match ops with
  | [] => current
  | Start callback :: rest => subscriber rest (Some callback)
  | (Stop | Cleanup) :: rest => subscriber rest None
  | Tick _ :: rest => subscriber rest current
  end.

Definition option_list {A} (o : option A) : list A :=
  match o with Some a => [a] | None => [] end.

Definition expoExec (env : Env) (op : Op) (s : ExpoPedometerAdapter.System)
  : M (list Emission * ExpoPedometerAdapter.System) :=
  match op with
  | Start callback => ret ([], ExpoPedometerAdapter.startStepCounting callback s)
  | Stop => ret ([], ExpoPedometerAdapter.stopStepCounting s)
  | Cleanup => ret ([], ExpoPedometerAdapter.cleanup s)
  | Tick steps => ExpoPedometerAdapter.notify env steps s
  end.

Definition mockExec (env : Env) (op : Op) (s : MockSensorAdapter.System)
  : M (list Emission * MockSensorAdapter.System) :=
  match op with
  | Start callback => ret ([], MockSensorAdapter.startStepCounting callback s)
  | Stop => ret ([], MockSensorAdapter.stopStepCounting s)
  | Cleanup => ret ([], MockSensorAdapter.cleanup s)
  | Tick _ => MockSensorAdapter.tick env s
  end.

(** Runs the operations in order; returns all the emissions and the final
    state. *)
Fixpoint runOps {Sys} (exec : Op -> Sys -> M (list Emission * Sys))
  (ops : list Op) (s : Sys) : M (list Emission * Sys) :=
  match ops with
  | [] => ret ([], s)
  | op :: rest =>
      r <- exec op s ;;
      rs <- runOps exec rest (snd r) ;;
      ret (fst r ++ fst rs, snd rs)
  end.

Definition expoRun (env : Env) (ops : list Op) (w : World)
  : list Emission * ExpoPedometerAdapter.System :=
  fst (runOps (expoExec env) ops ExpoPedometerAdapter.init w).

Definition mockRun (env : Env) (ops : list Op) (w : World)
  : list Emission * MockSensorAdapter.System :=
  fst (runOps (mockExec env) ops MockSensorAdapter.init w).

(** The instance holds at most one listener, the one of its handle. *)
Definition expoSingle (s : ExpoPedometerAdapter.System) (c : option Callback)
  : Prop :=
  match c with
  | None =>
      ExpoPedometerAdapter.subscription (ExpoPedometerAdapter.this s) = None
      /\ ExpoPedometerAdapter.listeners s = []
  | Some callback =>
      exists h,
        ExpoPedometerAdapter.subscription (ExpoPedometerAdapter.this s) = Some h
        /\ ExpoPedometerAdapter.listeners s = [(h, callback)]
  end.


(** *** Totals and increments of a stream of updates *)

(** The increment an update reports, 0 when it reports none. *)
Definition deltaOrZero (u : StepUpdate.t) : number :=
  match StepUpdate.stepsSinceLastUpdate u with
  | Some d => d
  | None => ofZ 0
  end.


(** *** Sequences of calls on the hook

    What the component and the outside do to a mounted hook. A
    [StartCounting] comes with the values its closure captured: those of the
    current render, or of an older one if the component calls a callback it
    kept. *)
Inductive HookOp : Type :=
| StartCounting (c : UseStepCounter.Captured)
| StopCounting
| RefreshData
| RequestPermissions
| Notified (count : number).

Definition hookExec (host : UseStepCounter.Host) (op : HookOp)
  (h : UseStepCounter.Hook) : UseStepCounter.Hook :=
  match op with
  | StartCounting c => UseStepCounter.startCounting c h
  | StopCounting => UseStepCounter.stopCounting h
  | RefreshData => UseStepCounter.refreshData host h
  | RequestPermissions => snd (UseStepCounter.requestPermissions host h)
  | Notified count => UseStepCounter.notified host count h
  end.

(** The hook after it was mounted and the operations were run in order. *)
Definition hookRun (host : UseStepCounter.Host) (autoStart : bool)
  (ops : list HookOp) (w : World) (probed : nat) : UseStepCounter.Hook :=
  fold_left (fun h op => hookExec host op h) ops
    (UseStepCounter.checkAvailability host autoStart
       (UseStepCounter.initial w probed)).

(** The hook counts exactly when it holds a cleanup function and its adapter
    has one listener, the hook's callback. *)
Definition hookCoherent (h : UseStepCounter.Hook) : Prop :=
  UseStepCounter.cleanupFn h = UseStepCounter.isCountingSteps h
  /\ expoSingle (UseStepCounter.sensorService h)
       (if UseStepCounter.isCountingSteps h
        then Some UseStepCounter.hookCallback else None).

(** A host whose sensor is there, on the sample environment without
    failures. *)
Definition sampleHost : UseStepCounter.Host :=
  {| UseStepCounter.env := sampleEnvOk;
     UseStepCounter.isAvailableAsync := fun _ => Resolves true |}.

(** * Properties *)

(** ** Numbers *)

Lemma Qred_ofZ (z : Z) : Qred (z # 1) = z # 1.
Proof.
  unfold Qred.
  generalize (Z.ggcd_gcd z 1) (Z.ggcd_correct_divisors z 1).
  destruct (Z.ggcd z 1) as [g [a b]]; simpl.
  rewrite Z.gcd_1_r. intros -> [Ha Hb].
  rewrite !Z.mul_1_l in *. subst a.
  replace b with 1 by lia. reflexivity.
Qed.


Lemma num_ext (p q : Q) : p == q -> num p = num q.
Proof. intros H. unfold num. f_equal. now apply Qred_complete. Qed.

Lemma num_Qred (q : Q) : num (Qred q) = num q.
Proof. apply num_ext, Qred_correct. Qed.

Lemma Qsign_Eq (q : Q) : Qsign q = Eq <-> q == 0.
Proof.
  unfold Qsign, Qeq; destruct q as [[|n|n] d]; simpl;
    split; intros H; try reflexivity; try discriminate; lia.
Qed.

Lemma Qsign_ofZ_nonzero (z : Z) : z <> 0 -> Qsign (z # 1) <> Eq.
Proof. destruct z; unfold Qsign; simpl; congruence. Qed.

(** ** Decimal strings *)

Lemma digit_val_digit_char (d : Z) :
  0 <= d < 10 -> digit_val (digit_char d) = Some d.
Proof.
  intros H.
  assert (d = 0 \/ d = 1 \/ d = 2 \/ d = 3 \/ d = 4 \/ d = 5 \/ d = 6 \/
          d = 7 \/ d = 8 \/ d = 9) as C by lia.
  repeat destruct C as [-> | C]; try subst d; reflexivity.
Qed.

Lemma digit_val_range (c : ascii) (d : Z) :
  digit_val c = Some d -> 0 <= d < 10.
Proof.
  unfold digit_val.
  destruct (48 <=? Z.of_N (N_of_ascii c)) eqn:E1;
    destruct (Z.of_N (N_of_ascii c) <=? 57) eqn:E2; simpl; try discriminate.
  intros [= <-]. lia.
Qed.

Lemma fold_dval_acc (l : jsstring) (a : Z) :
  fold_left (fun a c => a * 10 + match digit_val c with Some d => d | None => 0 end) l a
  = a * 10 ^ Z.of_nat (List.length l) + dval l.
Proof.
  unfold dval. revert a.
  induction l as [|c l IH]; intros a.
  - simpl. lia.
  - cbn [fold_left List.length]. rewrite IH, (IH (0 * 10 + _)).
    rewrite Nat2Z.inj_succ, Z.pow_succ_r by lia. ring.
Qed.

Lemma dval_app (a b : jsstring) :
  dval (a ++ b) = dval a * 10 ^ Z.of_nat (List.length b) + dval b.
Proof.
  unfold dval at 1. rewrite fold_left_app. fold (dval a). apply fold_dval_acc.
Qed.

Lemma dval_nonneg (l : jsstring) : 0 <= dval l.
Proof.
  induction l as [|c l IH] using rev_ind; [cbv; discriminate|].
  rewrite dval_app. cbn [List.length Z.of_nat].
  assert (0 <= dval [c]).
  { unfold dval; simpl. destruct (digit_val c) eqn:E; [|lia].
    apply digit_val_range in E. lia. }
  change (10 ^ Z.pos 1) with 10. lia.
Qed.

Lemma dval_bound (l : jsstring) : dval l < 10 ^ Z.of_nat (List.length l).
Proof.
  induction l as [|c l IH] using rev_ind; [cbv; reflexivity|].
  rewrite dval_app, length_app. cbn [List.length].
  assert (dval [c] < 10).
  { unfold dval; simpl. destruct (digit_val c) eqn:E; [|lia].
    apply digit_val_range in E. lia. }
  replace (Z.of_nat (List.length l + 1)) with (Z.succ (Z.of_nat (List.length l))) by lia.
  rewrite Z.pow_succ_r by lia.
  change (10 ^ Z.of_nat 1) with 10. lia.
Qed.

Lemma digits_aux_spec (fuel : nat) (n : Z) :
  (0 < fuel)%nat ->
  0 <= n < 2 ^ Z.of_nat fuel ->
  Forall is_digit (digits_aux fuel n) /\ dval (digits_aux fuel n) = n
  /\ digits_aux fuel n <> [].
Proof.
  revert n. induction fuel as [|f IH]; intros n Hf Hn.
  - lia.
  - cbn [digits_aux]. destruct (n <? 10) eqn:E.
    + apply Z.ltb_lt in E. repeat split.
      * constructor; [|constructor]. exists n. apply digit_val_digit_char. lia.
      * unfold dval; simpl. rewrite digit_val_digit_char; lia.
      * discriminate.
    + apply Z.ltb_ge in E.
      rewrite Nat2Z.inj_succ, Z.pow_succ_r in Hn by lia.
      destruct (IH (n / 10)) as (H1 & H2 & H3).
      { destruct f; [simpl in Hn; lia | lia]. }
      { split; [apply Z.div_pos; lia|].
        apply Z.div_lt_upper_bound; lia. }
      assert (0 <= n mod 10 < 10) as Hm by (apply Z.mod_pos_bound; lia).
      repeat split.
      * apply Forall_app; split; [assumption|].
        constructor; [|constructor]. exists (n mod 10).
        now apply digit_val_digit_char.
      * rewrite dval_app, H2. unfold dval at 1; simpl.
        rewrite digit_val_digit_char by assumption.
        change (10 ^ Z.pos 1) with 10.
        pose proof (Z.div_mod n 10). lia.
      * intros C. apply app_eq_nil in C. destruct C; discriminate.
Qed.

Lemma digits_spec (n : Z) :
  0 <= n ->
  Forall is_digit (digits n) /\ dval (digits n) = n /\ digits n <> [].
Proof.
  intros Hn. apply digits_aux_spec; [lia|]. split; [assumption|].
  rewrite Nat2Z.inj_succ, Z2Nat.id by apply Z.log2_nonneg.
  destruct (Z.eq_dec n 0) as [->|]; [reflexivity|].
  apply Z.log2_spec. lia.
Qed.

Lemma take_digits_app (a rest : jsstring) (acc : Z) (count : nat) :
  Forall is_digit a -> no_digit_ahead rest ->
  take_digits acc count (a ++ rest)
  = (acc * 10 ^ Z.of_nat (List.length a) + dval a,
     (count + List.length a)%nat, rest).
Proof.
  intros Ha Hr. revert acc count.
  induction Ha as [|c a [d Hd] Ha IH]; intros acc count.
  - simpl. rewrite Nat.add_0_r, Z.mul_1_r, Z.add_0_r.
    destruct rest as [|c r]; [reflexivity|].
    simpl in *. now rewrite Hr.
  - cbn [app take_digits]. rewrite Hd, IH.
    change (c :: a) with ([c] ++ a). rewrite dval_app.
    unfold dval at 2; simpl fold_left. rewrite Hd.
    cbn [List.length app]. rewrite Nat2Z.inj_succ, Z.pow_succ_r by lia.
    match goal with
    | |- (?x, ?y, _) = (?x', ?y', _) =>
        replace x with x' by ring; replace y with y' by lia; reflexivity
    end.
Qed.




Lemma is_digit_ascii (c : ascii) :
  is_digit c ->
  Ascii.eqb c "-" = false /\ Ascii.eqb c "+" = false /\ Ascii.eqb "I" c = false.
Proof.
  intros [d Hd]. unfold digit_val in Hd.
  destruct (48 <=? Z.of_N (N_of_ascii c)) eqn:E1; [|discriminate].
  destruct (Z.of_N (N_of_ascii c) <=? 57) eqn:E2; [|discriminate].
  apply Z.leb_le in E1, E2.
  repeat split; apply Ascii.eqb_neq; intros E; subst c; simpl in *; lia.
Qed.




Lemma starts_with_Infinity_digit (c : ascii) (r : jsstring) :
  is_digit c -> starts_with (lit "Infinity") (c :: r) = false.
Proof.
  intros Hc. destruct (is_digit_ascii c Hc) as (_ & _ & HI).
  unfold lit. cbn [list_ascii_of_string starts_with]. now rewrite HI.
Qed.

(** What [parse_decimal] reads from [digits] and from [digits . digits]. *)
Lemma parse_decimal_integer (negative : bool) (a : jsstring) :
  Forall is_digit a -> a <> [] ->
  parse_decimal negative a
  = num (if negative then - inject_Z (dval a) else inject_Z (dval a)).
Proof.
  intros Ha Hne. destruct a as [|c a]; [congruence|].
  unfold parse_decimal.
  rewrite starts_with_Infinity_digit by exact (Forall_inv Ha).
  pose proof (take_digits_app (c :: a) [] 0 0 Ha I) as Ht.
  rewrite app_nil_r in Ht. rewrite Ht.
  cbn [Nat.add Nat.eqb List.length].
  apply num_ext. destruct negative; simpl; field.
Qed.

Lemma Qabs_cases (q : Q) : Qabs q = if Qle_bool 0 q then q else Qopp q.
Proof.
  destruct q as [a b]. unfold Qle_bool, Qabs, Qopp; simpl.
  rewrite Z.mul_1_r. destruct (Z.leb_spec 0 a).
  - now rewrite Z.abs_eq.
  - now rewrite Z.abs_neq by lia.
Qed.



Lemma pow10_nonzero (f : nat) : ~ inject_Z (10 ^ Z.of_nat f) == 0.
Proof.
  intros C. unfold Qeq, inject_Z in C. simpl in C.
  pose proof (Z.pow_pos_nonneg 10 (Z.of_nat f) ltac:(lia) ltac:(lia)). lia.
Qed.

(** ** Arithmetic on finite numbers *)

Lemma mul_Num (a b : Q) : (Num a * Num b)%js = num (a * b).
Proof. reflexivity. Qed.

Lemma div_Num (a b : Q) : ~ b == 0 -> (Num a / Num b)%js = num (a / b).
Proof.
  intros Hb. unfold JS.div.
  destruct (Qsign b) eqn:E; try reflexivity.
  apply Qsign_Eq in E. contradiction.
Qed.

Lemma floor_num (q : Q) : JS.floor (num q) = ofZ (Qfloor q).
Proof. unfold num, JS.floor. now rewrite Qred_correct. Qed.





(** ** StepCalculator on finite numbers *)






(** [round_half_away q f] is a multiple of [10^-f] at distance at most half a
    unit from [q]. *)
Lemma round_half_away_nearest (q : Q) (f : nat) :
  (Qabs (round_half_away q f - q) <= (1 # 2) / inject_Z (10 ^ Z.of_nat f))%Q.
Proof.
  pose proof (pow10_nonzero f) as Hnz.
  assert (0 < inject_Z (10 ^ Z.of_nat f))%Q as Hpos.
  { change 0%Q with (inject_Z 0). rewrite <- Zlt_Qlt.
    apply Z.pow_pos_nonneg; lia. }
  pose proof (Qfloor_le (Qabs q * inject_Z (10 ^ Z.of_nat f) + (1 # 2))) as Hlo.
  pose proof (Qlt_floor (Qabs q * inject_Z (10 ^ Z.of_nat f) + (1 # 2))) as Hhi.
  fold (half_away_units q f) in Hlo, Hhi.
  rewrite inject_Z_plus in Hhi.
  unfold round_half_away.
  set (sc := inject_Z (10 ^ Z.of_nat f)) in *.
  set (n := inject_Z (half_away_units q f)) in *.
  assert (Qabs (n - Qabs q * sc) <= (1 # 2))%Q as Hn.
  { apply Qabs_Qle_condition. set (a := (Qabs q * sc)%Q) in *.
    change (inject_Z 1) with 1%Q in Hhi. split; lra. }
  assert (0 <= / sc)%Q as Hinv by apply Qlt_le_weak, Qinv_lt_0_compat, Hpos.
  assert (Qabs ((if Qle_bool 0 q then n else - n) / sc - q)
          == Qabs (n - Qabs q * sc) / sc)%Q as E.
  { rewrite (Qabs_cases q). destruct (Qle_bool 0 q) eqn:Hq.
    - setoid_replace (n / sc - q)%Q with ((n - q * sc) * / sc)%Q by (field; exact Hnz).
      rewrite Qabs_Qmult, (Qabs_pos (/ sc)) by exact Hinv. reflexivity.
    - setoid_replace (- n / sc - q)%Q with (- ((n - - q * sc) * / sc))%Q
        by (field; exact Hnz).
      rewrite Qabs_opp, Qabs_Qmult, (Qabs_pos (/ sc)) by exact Hinv. reflexivity. }
  rewrite E. unfold Qdiv. apply Qmult_le_compat_r; assumption.
Qed.


(** ** The calculator's claims *)


(** Without the guard the quotient by zero is not a finite number. *)
Lemma unguarded_pace_by_zero :
  JS.floor (ofZ 100 / ofZ 0)%js = PosInf
  /\ JS.floor (ofZ 0 / ofZ 0)%js = NaN.
Proof. split; reflexivity. Qed.





(** ** The monad *)

Lemma mapM_length {A B} (f : A -> M B) (l : list A) (w : World) :
  List.length (fst (mapM f l w)) = List.length l.
Proof.
  revert w. induction l as [|a l IH]; intros w; [reflexivity|].
  cbn [mapM]. unfold bind, ret.
  destruct (f a w) as [b w1]. specialize (IH w1).
  destruct (mapM f l w1) as [bs w2]. simpl in *. now rewrite IH.
Qed.

(** A property every run of the body has holds of every element. *)
Lemma mapM_Forall {A B} (P : B -> Prop) (f : A -> M B) (l : list A) (w : World) :
  (forall a w', In a l -> P (fst (f a w'))) ->
  Forall P (fst (mapM f l w)).
Proof.
  revert w. induction l as [|a l IH]; intros w H; [constructor|].
  cbn [mapM]. unfold bind, ret.
  pose proof (H a w (or_introl eq_refl)) as Ha.
  destruct (f a w) as [b w1].
  specialize (IH w1 (fun a' w' Hin => H a' w' (or_intror Hin))).
  destruct (mapM f l w1) as [bs w2]. simpl in *. now constructor.
Qed.

(** A projection of the results that does not depend on the world is a map
    over the inputs. *)
Lemma mapM_map {A B C} (g : B -> C) (g' : A -> C) (f : A -> M B)
  (l : list A) (w : World) :
  (forall a w', g (fst (f a w')) = g' a) ->
  map g (fst (mapM f l w)) = map g' l.
Proof.
  intros H. revert w. induction l as [|a l IH]; intros w; [reflexivity|].
  cbn [mapM]. unfold bind, ret.
  pose proof (H a w) as Ha.
  destruct (f a w) as [b w1]. specialize (IH w1).
  destruct (mapM f l w1) as [bs w2]. simpl in *. now rewrite Ha, IH.
Qed.

Lemma afterQueries_S (k : nat) (w : World) :
  afterQueries (S k) w = afterQueries k (afterQueries 1 w).
Proof. unfold afterQueries; simpl. f_equal. lia. Qed.

Lemma afterQueries_0 (w : World) : afterQueries 0 w = w.
Proof. destruct w. unfold afterQueries; simpl. f_equal. lia. Qed.

(** When each run of the body makes exactly one query, the [k]-th element is
    what the body returns after [k] queries. *)
Lemma mapM_nth_error {A B} (f : A -> M B) (l : list A) (w : World) (k : nat) :
  (forall a w', snd (f a w') = afterQueries 1 w') ->
  nth_error (fst (mapM f l w)) k
  = option_map (fun a => fst (f a (afterQueries k w))) (nth_error l k).
Proof.
  intros H. revert w k. induction l as [|a l IH]; intros w k.
  - destruct k; reflexivity.
  - cbn [mapM]. unfold bind, ret.
    pose proof (H a w) as Ha.
    destruct (f a w) as [b w1] eqn:E. simpl in Ha. subst w1.
    specialize (IH (afterQueries 1 w)).
    destruct (mapM f l (afterQueries 1 w)) as [bs w2]. simpl in *.
    destruct k as [|k].
    + simpl. rewrite afterQueries_0, E. reflexivity.
    + simpl. rewrite IH, (afterQueries_S k w). reflexivity.
Qed.

Lemma range_length (n : Z) : List.length (range n) = Z.to_nat n.
Proof. unfold range. now rewrite length_map, length_seq. Qed.

Lemma range_nonpos (n : Z) : n <= 0 -> range n = [].
Proof. intros H. unfold range. now replace (Z.to_nat n) with O by lia. Qed.

Lemma range_nth_error (n : Z) (k : nat) :
  (k < Z.to_nat n)%nat -> nth_error (range n) k = Some (Z.of_nat k).
Proof.
  intros H. unfold range. rewrite nth_error_map, nth_error_seq.
  destruct (Nat.ltb_spec k (Z.to_nat n)); [reflexivity | lia].
Qed.
(** ** ExpoPedometerAdapter: the queries *)

Lemma expo_getStepCount_run (env : Env) (startDate endDate : Date.t) (w : World) :
  ExpoPedometerAdapter.getStepCount env startDate endDate w
  = (match stepCountAsync env (queries w) startDate endDate with
     | Throws => zeroStepData startDate endDate
     | r =>
         {| StepData.id :=
              string_of_int startDate ++ lit "-" ++ string_of_int endDate;
            StepData.steps := stepsOrZero r;
            StepData.distance :=
              StepCalculator.calculateDistance (stepsOrZero r) None;
            StepData.calories :=
              StepCalculator.calculateCalories (stepsOrZero r) None;
            StepData.activeMinutes :=
              StepCalculator.calculateActiveMinutes (stepsOrZero r) None;
            StepData.startDate := startDate;
            StepData.endDate := endDate;
            StepData.source := pedometer |}
     end, afterQueries 1 w).
Proof.
  unfold ExpoPedometerAdapter.getStepCount, bind, getStepCountAsync, ret,
    afterQueries.
  replace (queries w + 1)%nat with (S (queries w)) by lia.
  destruct (stepCountAsync env (queries w) startDate endDate); reflexivity.
Qed.



Lemma expo_hourly_body_world (env : Env) (startOfDay : Date.t) (hour : Z)
  (w : World) :
  let hourStart := Date.setHours (tz env) startOfDay hour 0 0 0 in
  let hourEnd := Date.setHours (tz env) startOfDay hour 59 59 999 in
  (result <- getStepCountAsync env hourStart hourEnd ;;
   match result with
   | Throws =>
       ret {| HourlyStepData.hour := ofZ hour;
              HourlyStepData.steps := ofZ 0;
              HourlyStepData.timestamp := hourStart |}
   | _ =>
       ret {| HourlyStepData.hour := ofZ hour;
              HourlyStepData.steps := stepsOrZero result;
              HourlyStepData.timestamp := hourStart |}
   end) w
  = ({| HourlyStepData.hour := ofZ hour;
        HourlyStepData.steps :=
          stepsOrZero (stepCountAsync env (queries w) hourStart hourEnd);
        HourlyStepData.timestamp := hourStart |},
     afterQueries 1 w).
Proof.
  cbv zeta. unfold bind, getStepCountAsync, ret, afterQueries.
  replace (queries w + 1)%nat with (S (queries w)) by lia.
  destruct (stepCountAsync env (queries w) _ _); reflexivity.
Qed.

(** The entry of hour [h] is decided by the [h]-th query of the breakdown
    alone. *)
Lemma expo_getHourlyBreakdown_nth (env : Env) (startOfDay endOfDay : Date.t)
  (w : World) (h : nat) :
  (h < 24)%nat ->
  let hourStart := Date.setHours (tz env) startOfDay (Z.of_nat h) 0 0 0 in
  let hourEnd := Date.setHours (tz env) startOfDay (Z.of_nat h) 59 59 999 in
  nth_error (fst (ExpoPedometerAdapter.getHourlyBreakdown env startOfDay endOfDay w)) h
  = Some {| HourlyStepData.hour := ofZ (Z.of_nat h);
            HourlyStepData.steps :=
              stepsOrZero (stepCountAsync env (queries w + h) hourStart hourEnd);
            HourlyStepData.timestamp := hourStart |}.
Proof.
  intros Hh. cbv zeta. unfold ExpoPedometerAdapter.getHourlyBreakdown.
  rewrite mapM_nth_error.
  - rewrite range_nth_error by (simpl; lia). cbn [option_map].
    rewrite expo_hourly_body_world. reflexivity.
  - intros a w'. now rewrite expo_hourly_body_world.
Qed.

Lemma expo_getHourlyBreakdown_length (env : Env) (startOfDay endOfDay : Date.t)
  (w : World) :
  List.length (fst (ExpoPedometerAdapter.getHourlyBreakdown env startOfDay endOfDay w))
  = 24%nat.
Proof.
  unfold ExpoPedometerAdapter.getHourlyBreakdown. now rewrite mapM_length.
Qed.

(** C8. When the pedometer query rejects, [getStepCount] returns the record
    with steps, distance, calories and active minutes 0, whose id, dates and
    source are those of any successful call on the same interval. In
    [getHourlyBreakdown] the entry of hour [h] has the steps of the [h]-th
    query, 0 if it failed: a failing query zeroes its own hour and leaves the
    entries of the other hours as they are. *)
Theorem expo_query_failure_degrades_to_zero :
  (forall (env : Env) (w : World) (startDate endDate : Date.t),
      stepCountAsync env (queries w) startDate endDate = Throws ->
      fst (ExpoPedometerAdapter.getStepCount env startDate endDate w)
      = zeroStepData startDate endDate
      /\ forall (env' : Env) (w' : World),
          let ok := fst (ExpoPedometerAdapter.getStepCount env' startDate endDate w') in
          StepData.id ok = StepData.id (zeroStepData startDate endDate)
          /\ StepData.startDate ok = startDate
          /\ StepData.endDate ok = endDate
          /\ StepData.source ok = pedometer)
  /\ (forall (env : Env) (w : World) (startOfDay endOfDay : Date.t) (h : nat),
         (h < 24)%nat ->
         let hourStart := Date.setHours (tz env) startOfDay (Z.of_nat h) 0 0 0 in
         let hourEnd := Date.setHours (tz env) startOfDay (Z.of_nat h) 59 59 999 in
         nth_error
           (fst (ExpoPedometerAdapter.getHourlyBreakdown env startOfDay endOfDay w)) h
         = Some {| HourlyStepData.hour := ofZ (Z.of_nat h);
                   HourlyStepData.steps :=
                     stepsOrZero
                       (stepCountAsync env (queries w + h) hourStart hourEnd);
                   HourlyStepData.timestamp := hourStart |})
  /\ (forall (env env' : Env) (w : World) (startOfDay endOfDay : Date.t) (h : nat),
         (h < 24)%nat ->
         tz env = tz env' ->
         (forall k s e, k <> (queries w + h)%nat ->
                        stepCountAsync env k s e = stepCountAsync env' k s e) ->
         stepCountAsync env (queries w + h)
           (Date.setHours (tz env) startOfDay (Z.of_nat h) 0 0 0)
           (Date.setHours (tz env) startOfDay (Z.of_nat h) 59 59 999) = Throws ->
         let failing :=
           fst (ExpoPedometerAdapter.getHourlyBreakdown env startOfDay endOfDay w) in
         let other :=
           fst (ExpoPedometerAdapter.getHourlyBreakdown env' startOfDay endOfDay w) in
         option_map HourlyStepData.steps (nth_error failing h) = Some (ofZ 0)
         /\ forall j, j <> h -> nth_error failing j = nth_error other j).
Proof.
  split; [|split].
  - intros env w s e Hthrow. split.
    + rewrite expo_getStepCount_run, Hthrow. reflexivity.
    + intros env' w'. cbv zeta. rewrite expo_getStepCount_run. cbn [fst].
      destruct (stepCountAsync env' (queries w') s e); repeat split.
  - intros env w sod eod h Hh. now apply expo_getHourlyBreakdown_nth.
  - intros env env' w sod eod h Hh Htz Hagree Hthrow. cbv zeta. split.
    + rewrite expo_getHourlyBreakdown_nth by assumption.
      cbn [option_map HourlyStepData.steps]. now rewrite Hthrow.
    + intros j Hj. destruct (Nat.lt_ge_cases j 24) as [Hlt|Hge].
      * rewrite !expo_getHourlyBreakdown_nth by assumption.
        rewrite <- Htz, Hagree by lia. reflexivity.
      * transitivity (@None HourlyStepData.t); [|symmetry];
          apply nth_error_None; now rewrite expo_getHourlyBreakdown_length.
Qed.

(** The sample pedometer fails on its third query, which is the first query
    of a world that has seen two, and the query of hour 2 of a breakdown
    started in a fresh world. *)
Lemma expo_query_failure_degrades_to_zero_witness :
  fst (ExpoPedometerAdapter.getStepCount sampleEnv 0 3600000
         (afterQueries 2 startWorld))
  = zeroStepData 0 3600000
  /\ nth_error
       (fst (ExpoPedometerAdapter.getHourlyBreakdown sampleEnv 0 86399000 startWorld)) 2
     = Some {| HourlyStepData.hour := ofZ 2;
               HourlyStepData.steps := ofZ 0;
               HourlyStepData.timestamp := 7200000 |}
  /\ nth_error
       (fst (ExpoPedometerAdapter.getHourlyBreakdown sampleEnv 0 86399000 startWorld)) 1
     = nth_error
         (fst (ExpoPedometerAdapter.getHourlyBreakdown
                 {| tz := 0;
                    clock := clock sampleEnv;
                    random := random sampleEnv;
                    stepCountAsync := fun k s e =>
                      if Nat.eqb k 2 then Null
                      else stepCountAsync sampleEnv k s e |}
                 0 86399000 startWorld)) 1.
Proof.
  destruct expo_query_failure_degrades_to_zero as (H1 & H2 & H3).
  split; [|split].
  - apply (H1 sampleEnv (afterQueries 2 startWorld) 0 3600000). reflexivity.
  - apply (H2 sampleEnv startWorld 0 86399000 2%nat). simpl; lia.
  - apply (H3 sampleEnv _ startWorld 0 86399000 2%nat).
    + simpl; lia.
    + reflexivity.
    + intros k s e Hk. simpl in Hk. simpl.
      destruct (Nat.eqb_spec k 2); [contradiction | reflexivity].
    + reflexivity.
    + discriminate.
Defined.

(** ** Derived fields *)

Lemma expo_getTodaySteps_run (env : Env) (w : World) :
  ExpoPedometerAdapter.getTodaySteps env w
  = ExpoPedometerAdapter.getStepCount env
      (Date.atTime (tz env) (clock env (clockReads w)) 0 0 0)
      (clock env (S (clockReads w)))
      (afterClockReads 2 w).
Proof.
  unfold ExpoPedometerAdapter.getTodaySteps, bind, newDate, afterClockReads.
  cbn [clockReads randomDraws queries].
  replace (clockReads w + 2)%nat with (S (S (clockReads w))) by lia.
  reflexivity.
Qed.




(** ** MockSensorAdapter: the hourly breakdown *)

Lemma mock_generateHourlyData_hours (env : Env) (totalSteps : number) (w : World) :
  map HourlyStepData.hour (fst (MockSensorAdapter.generateHourlyData env totalSteps w))
  = map ofZ (range 25).
Proof.
  unfold MockSensorAdapter.generateHourlyData.
  rewrite (mapM_map HourlyStepData.hour (fun ph => ofZ (snd ph))).
  - reflexivity.
  - intros [percentage hour] w'. reflexivity.
Qed.

Lemma mock_generateHourlyData_steps (env : Env) (totalSteps : number) (w : World) :
  map HourlyStepData.steps (fst (MockSensorAdapter.generateHourlyData env totalSteps w))
  = map (fun percentage => JS.floor (totalSteps * percentage)%js)
      MockSensorAdapter.distribution.
Proof.
  unfold MockSensorAdapter.generateHourlyData.
  rewrite (mapM_map HourlyStepData.steps
             (fun ph => JS.floor (totalSteps * fst ph)%js)).
  - reflexivity.
  - intros [percentage hour] w'. reflexivity.
Qed.

Lemma sumSteps_map (l : list HourlyStepData.t) :
  sumSteps l
  = fold_left JS.add (map HourlyStepData.steps l) (ofZ 0).
Proof.
  unfold sumSteps. generalize (ofZ 0).
  induction l as [|h l IH]; intros acc; [reflexivity|].
  simpl. apply IH.
Qed.

(** Every record of [getHistoricalSteps] carries the breakdown of its own
    steps. *)
Lemma mock_getHistoricalSteps_hourly (env : Env) (days : Z) (w : World) :
  Forall (fun d => exists w',
              DailyStepData.hourlyData d
              = fst (MockSensorAdapter.generateHourlyData env
                       (StepData.steps (DailyStepData.base d)) w'))
    (fst (MockSensorAdapter.getHistoricalSteps env days w)).
Proof.
  unfold MockSensorAdapter.getHistoricalSteps, bind at 1.
  destruct (newDate env w) as [today w1].
  unfold bind at 1.
  match goal with
  | |- context [mapM ?f ?l ?w] =>
      pose proof (fun P => mapM_Forall P f l w) as H;
      destruct (mapM f l w) as [data w2]
  end.
  cbn [ret fst]. apply Forall_rev. apply H.
  intros i w' _. unfold bind.
  destruct (mathRandom env w') as [r w''].
  match goal with
  | |- context [MockSensorAdapter.generateHourlyData env ?s w''] =>
      destruct (MockSensorAdapter.generateHourlyData env s w'') as [hourly w3] eqn:E
  end.
  exists w''. cbn [fst DailyStepData.hourlyData DailyStepData.base StepData.steps ret].
  change hourly with (fst (hourly, w3)). rewrite <- E. reflexivity.
Qed.

Lemma mock_getHistoricalSteps_length (env : Env) (days : Z) (w : World) :
  List.length (fst (MockSensorAdapter.getHistoricalSteps env days w))
  = Z.to_nat days.
Proof.
  unfold MockSensorAdapter.getHistoricalSteps, bind at 1.
  destruct (newDate env w) as [today w1].
  unfold bind at 1.
  match goal with
  | |- context [mapM ?f ?l ?w] =>
      pose proof (mapM_length f l w) as H;
      destruct (mapM f l w) as [data w2]
  end.
  cbn [ret fst] in *. now rewrite length_rev, H, range_length.
Qed.

(** C1, where the code departs from it: every record of
    [MockSensorAdapter.getHistoricalSteps(days)] has 25 hourly entries, for
    the hours 0 to 24, whatever the clock and the random draws; for
    [days = 1] there is one such record. *)
Theorem mock_historical_day_has_25_hours (env : Env) (w : World) (days : Z) :
  Forall (fun d =>
            List.length (DailyStepData.hourlyData d) = 25%nat
            /\ map HourlyStepData.hour (DailyStepData.hourlyData d)
               = map ofZ [0; 1; 2; 3; 4; 5; 6; 7; 8; 9; 10; 11; 12; 13; 14; 15;
                          16; 17; 18; 19; 20; 21; 22; 23; 24])
    (fst (MockSensorAdapter.getHistoricalSteps env days w))
  /\ List.length (fst (MockSensorAdapter.getHistoricalSteps env days w))
     = Z.to_nat days
  /\ exists d : DailyStepData.t,
      fst (MockSensorAdapter.getHistoricalSteps env 1 w) = [d]
      /\ List.length (DailyStepData.hourlyData d) = 25%nat.
Proof.
  assert (forall n,
             Forall (fun d =>
                       List.length (DailyStepData.hourlyData d) = 25%nat
                       /\ map HourlyStepData.hour (DailyStepData.hourlyData d)
                          = map ofZ (range 25))
               (fst (MockSensorAdapter.getHistoricalSteps env n w))) as H.
  { intros n.
    eapply Forall_impl; [|apply mock_getHistoricalSteps_hourly].
    intros d [w' Hh].
    assert (map HourlyStepData.hour (DailyStepData.hourlyData d)
            = map ofZ (range 25)) as Hm
      by (rewrite Hh; apply mock_generateHourlyData_hours).
    split; [|exact Hm].
    rewrite <- (length_map HourlyStepData.hour), Hm. reflexivity. }
  split; [exact (H days)|].
  split; [apply mock_getHistoricalSteps_length|].
  pose proof (mock_getHistoricalSteps_length env 1 w) as Hl.
  specialize (H 1).
  destruct (fst (MockSensorAdapter.getHistoricalSteps env 1 w)) as [|d [|d' l]];
    try discriminate.
  apply Forall_inv in H. exists d. split; [reflexivity | apply H].
Qed.

(** C4, where the code departs from it: for a day of 10000 steps the hourly
    entries of [generateHourlyData] add up to 14500, and the record
    [getHistoricalSteps(1)] returns in the sample environment has 10000 steps
    and a breakdown that adds up to 14500. *)
Theorem mock_hourly_breakdown_exceeds_total (env : Env) (w : World) :
  sumSteps (fst (MockSensorAdapter.generateHourlyData env (ofZ 10000) w))
  = ofZ 14500
  /\ exists d : DailyStepData.t,
      fst (MockSensorAdapter.getHistoricalSteps sampleEnv 1 startWorld) = [d]
      /\ StepData.steps (DailyStepData.base d) = ofZ 10000
      /\ sumSteps (DailyStepData.hourlyData d) = ofZ 14500
      /\ JS.gt (sumSteps (DailyStepData.hourlyData d))
           (StepData.steps (DailyStepData.base d)) = true.
Proof.
  split.
  - rewrite sumSteps_map, mock_generateHourlyData_steps. vm_compute. reflexivity.
  - eexists. split; [vm_compute; reflexivity|].
    split; [reflexivity|]. split; vm_compute; reflexivity.
Qed.

(** ** getTodaySteps *)

Lemma getHours_range (tz : Z) (d : Date.t) : 0 <= Date.getHours tz d < 24.
Proof.
  unfold Date.getHours, Date.msPerDay, Date.msPerHour.
  Z.to_euclidean_division_equations. lia.
Qed.

(** The loop of [generateRealisticDailySteps] adds up the table from hour 0 to
    the current hour. *)
Lemma generateRealisticDailySteps_sum (currentHour : Z) :
  0 <= currentHour < 24 ->
  MockSensorAdapter.generateRealisticDailySteps currentHour
  = fold_left JS.add
      (firstn (Z.to_nat currentHour + 1) MockSensorAdapter.stepsPerHour) (ofZ 0).
Proof.
  intros H.
  assert (currentHour = 0 \/ currentHour = 1 \/ currentHour = 2 \/ currentHour = 3
          \/ currentHour = 4 \/ currentHour = 5 \/ currentHour = 6
          \/ currentHour = 7 \/ currentHour = 8 \/ currentHour = 9
          \/ currentHour = 10 \/ currentHour = 11 \/ currentHour = 12
          \/ currentHour = 13 \/ currentHour = 14 \/ currentHour = 15
          \/ currentHour = 16 \/ currentHour = 17 \/ currentHour = 18
          \/ currentHour = 19 \/ currentHour = 20 \/ currentHour = 21
          \/ currentHour = 22 \/ currentHour = 23) as C by lia.
  repeat destruct C as [-> | C]; try subst currentHour; vm_compute; reflexivity.
Qed.

Lemma string_of_int_head (z : Z) :
  exists c r, string_of_int z = c :: r /\ c <> "t"%char.
Proof.
  unfold string_of_int. destruct (z <? 0) eqn:E.
  - eexists _, _. split; [reflexivity | discriminate].
  - apply Z.ltb_ge in E. destruct (digits_spec z E) as (Hd & _ & Hne).
    destruct (digits z) as [|c r]; [congruence|].
    exists c, r. split; [reflexivity|].
    apply Forall_inv in Hd. destruct Hd as [d Hd].
    intros ->. discriminate.
Qed.

(** C3, as stated, fails for the mock adapter: in the sample environment
    [getTodaySteps()] returns 14150 steps under the id [mock-today-...], while
    [getStepCount(startOfDay, now)] returns 8908 steps. *)
Lemma mock_getTodaySteps_is_not_getStepCount :
  let now := clock sampleEnv 0 in
  let startOfDay := Date.atTime (tz sampleEnv) now 0 0 0 in
  let today := fst (MockSensorAdapter.getTodaySteps sampleEnv startWorld) in
  let ranged :=
    fst (MockSensorAdapter.getStepCount sampleEnv startOfDay now
           (afterClockReads 1 startWorld)) in
  today <> ranged
  /\ StepData.steps today = ofZ 14150
  /\ StepData.steps ranged = ofZ 8908
  /\ StepData.id today = lit "mock-today-1700000000000"
  /\ StepData.id ranged = lit "mock-1699920000000-1700000000000".
Proof.
  cbv zeta. split; [|repeat split; vm_compute; reflexivity].
  intros C. apply (f_equal StepData.steps) in C. vm_compute in C. discriminate.
Qed.

(** C3, amended. [ExpoPedometerAdapter.getTodaySteps()] is
    [getStepCount(startOfDay, now)], [startOfDay] being the local midnight of
    a first reading of the clock and [now] a second reading.
    [MockSensorAdapter.getTodaySteps()] does not go through [getStepCount]: its
    record has the same start (local midnight), end (now) and source, but the
    id [mock-today-<now>] and, as steps, the per-hour table added up from
    hour 0 to the current hour; it is never a record [getStepCount] returns. *)
Theorem getTodaySteps_expo_sugar_mock_diurnal (env : Env) (w : World) :
  fst (ExpoPedometerAdapter.getTodaySteps env w)
  = fst (ExpoPedometerAdapter.getStepCount env
           (Date.atTime (tz env) (clock env (clockReads w)) 0 0 0)
           (clock env (S (clockReads w)))
           (afterClockReads 2 w))
  /\ let now := clock env (clockReads w) in
     let d := fst (MockSensorAdapter.getTodaySteps env w) in
     StepData.startDate d = Date.atTime (tz env) now 0 0 0
     /\ StepData.endDate d = now
     /\ StepData.source d = mock
     /\ StepData.id d = lit "mock-today-" ++ string_of_int now
     /\ StepData.steps d
        = fold_left JS.add
            (firstn (Z.to_nat (Date.getHours (tz env) now) + 1)
               MockSensorAdapter.stepsPerHour) (ofZ 0)
     /\ forall (startDate endDate : Date.t) (w' : World),
         d <> fst (MockSensorAdapter.getStepCount env startDate endDate w').
Proof.
  split; [now rewrite expo_getTodaySteps_run|].
  cbv zeta. unfold MockSensorAdapter.getTodaySteps, bind, newDate, ret.
  cbn [fst StepData.startDate StepData.endDate StepData.source StepData.id
         StepData.steps].
  repeat split.
  - apply generateRealisticDailySteps_sum, getHours_range.
  - intros s e w' C. apply (f_equal StepData.id) in C.
    unfold MockSensorAdapter.getStepCount, bind, ret in C.
    destruct (mathRandom env w') as [r w'']. cbn [fst StepData.id] in C.
    destruct (string_of_int_head s) as (c & rest & E & Hc).
    rewrite E in C. unfold lit in C. cbn [list_ascii_of_string app] in C.
    injection C as C. congruence.
Qed.

(** ** The subscription *)

Lemma remove_own (h : nat) (c : Callback) :
  ExpoPedometerAdapter.remove h [(h, c)] = [].
Proof. unfold ExpoPedometerAdapter.remove; simpl. now rewrite Nat.eqb_refl. Qed.


Lemma expo_start_single (s : ExpoPedometerAdapter.System) (c : option Callback)
  (callback : Callback) :
  expoSingle s c ->
  expoSingle (ExpoPedometerAdapter.startStepCounting callback s) (Some callback).
Proof.
  intros H. exists (ExpoPedometerAdapter.nextHandle s).
  unfold ExpoPedometerAdapter.startStepCounting. cbn.
  split; [reflexivity|].
  destruct c as [c|]; simpl in H.
  - destruct H as (h & -> & ->). now rewrite remove_own.
  - destruct H as [-> ->]. reflexivity.
Qed.

Lemma expo_stop_single (s : ExpoPedometerAdapter.System) (c : option Callback) :
  expoSingle s c -> expoSingle (ExpoPedometerAdapter.stopStepCounting s) None.
Proof.
  intros H. unfold ExpoPedometerAdapter.stopStepCounting. cbn.
  split; [reflexivity|].
  destruct c as [c|]; simpl in H.
  - destruct H as (h & -> & ->). apply remove_own.
  - destruct H as [-> ->]. reflexivity.
Qed.

Lemma expo_cleanup_single (s : ExpoPedometerAdapter.System) (c : option Callback) :
  expoSingle s c -> expoSingle (ExpoPedometerAdapter.cleanup s) None.
Proof.
  intros H. unfold ExpoPedometerAdapter.cleanup.
  destruct c as [c|]; simpl in H.
  - destruct H as (h & -> & ->). cbn. split; [reflexivity | apply remove_own].
  - destruct H as [E1 E2]. rewrite E1. now split.
Qed.

Lemma expo_notifyAll_subscription (env : Env) (l : list (nat * Callback))
  (steps : number) (st : ExpoPedometerAdapter.State) (w : World) :
  ExpoPedometerAdapter.subscription
    (snd (fst (ExpoPedometerAdapter.notifyAll env l steps st w)))
  = ExpoPedometerAdapter.subscription st
  /\ map fst (fst (fst (ExpoPedometerAdapter.notifyAll env l steps st w)))
     = map snd l.
Proof.
  revert st w. induction l as [|[h c] l IH]; intros st w; [now split|].
  cbn [ExpoPedometerAdapter.notifyAll].
  unfold ExpoPedometerAdapter.listener. unfold bind, ret. cbn beta.
  destruct (newDate env w) as [now w1]. cbn [snd fst].
  match goal with
  | |- context [ExpoPedometerAdapter.notifyAll env l steps ?st' w1] =>
      specialize (IH st' w1);
      destruct (ExpoPedometerAdapter.notifyAll env l steps st' w1) as [[es st2] w2]
  end.
  cbn [fst snd map ret] in *. destruct IH as [IH1 IH2].
  split; [exact IH1 | now f_equal].
Qed.

Lemma expo_notify_single (env : Env) (s : ExpoPedometerAdapter.System)
  (c : option Callback) (steps : number) (w : World) :
  expoSingle s c ->
  expoSingle (snd (fst (ExpoPedometerAdapter.notify env steps s w))) c
  /\ map fst (fst (fst (ExpoPedometerAdapter.notify env steps s w)))
     = option_list c.
Proof.
  intros H. unfold ExpoPedometerAdapter.notify, bind, ret.
  pose proof (expo_notifyAll_subscription env (ExpoPedometerAdapter.listeners s)
                steps (ExpoPedometerAdapter.this s) w) as [E1 E2].
  destruct (ExpoPedometerAdapter.notifyAll env _ steps _ w) as [[es st] w1].
  cbn [fst snd] in *.
  destruct c as [c|]; simpl in H |- *.
  - destruct H as (h & Hs & Hl). split.
    + exists h. cbn. split; congruence.
    + now rewrite E2, Hl.
  - destruct H as [Hs Hl]. split.
    + cbn. split; congruence.
    + now rewrite E2, Hl.
Qed.

Lemma expo_run_single (env : Env) (ops : list Op)
  (s : ExpoPedometerAdapter.System) (c : option Callback) (w : World) :
  expoSingle s c ->
  expoSingle (snd (fst (runOps (expoExec env) ops s w))) (subscriber ops c).
Proof.
  revert s c w. induction ops as [|op ops IH]; intros s c w H; [exact H|].
  cbn [runOps]. unfold bind at 1.
  destruct op as [callback| | |steps]; cbn [expoExec subscriber].
  - unfold ret at 1. unfold bind at 1. cbn [snd fst].
    specialize (IH _ _ w (expo_start_single s c callback H)).
    destruct (runOps (expoExec env) ops _ w) as [[es s'] w']. exact IH.
  - unfold ret at 1. unfold bind at 1. cbn [snd fst].
    specialize (IH _ _ w (expo_stop_single s c H)).
    destruct (runOps (expoExec env) ops _ w) as [[es s'] w']. exact IH.
  - unfold ret at 1. unfold bind at 1. cbn [snd fst].
    specialize (IH _ _ w (expo_cleanup_single s c H)).
    destruct (runOps (expoExec env) ops _ w) as [[es s'] w']. exact IH.
  - pose proof (expo_notify_single env s c steps w H) as [Hn _].
    destruct (ExpoPedometerAdapter.notify env steps s w) as [[es1 s1] w1].
    unfold bind at 1. cbn [snd fst] in *.
    specialize (IH s1 c w1 Hn).
    destruct (runOps (expoExec env) ops s1 w1) as [[es s'] w']. exact IH.
Qed.






Lemma expo_init_single : expoSingle ExpoPedometerAdapter.init None.
Proof. now split. Qed.



Lemma remove_not_In (h : nat) (l : list (nat * Callback)) :
  ~ In h (map fst (ExpoPedometerAdapter.remove h l)).
Proof.
  unfold ExpoPedometerAdapter.remove. intros C.
  apply in_map_iff in C. destruct C as ([h' c] & E & Hin).
  apply filter_In in Hin. destruct Hin as [_ Hf]. simpl in *. subst h'.
  now rewrite Nat.eqb_refl in Hf.
Qed.

(** C10. The cleanup function of [ExpoPedometerAdapter.startStepCounting]
    removes the subscribed listener and sets the handle to null; it leaves
    [lastStepCount] (and the rest of the state) as it was, where
    [stopStepCounting] sets [lastStepCount] to 0. [startStepCounting] does not
    touch [lastStepCount] either, so after a cleanup and a new start the
    first update reports its steps against the old baseline. *)
Theorem expo_cleanup_keeps_baseline
  (env : Env) (s : ExpoPedometerAdapter.System) (callback : Callback)
  (ops : list Op) (w w' : World) (steps : number) :
  ExpoPedometerAdapter.subscription
    (ExpoPedometerAdapter.this (ExpoPedometerAdapter.cleanup s)) = None
  /\ ExpoPedometerAdapter.listeners (ExpoPedometerAdapter.cleanup s)
     = match ExpoPedometerAdapter.subscription (ExpoPedometerAdapter.this s) with
       | Some h => ExpoPedometerAdapter.remove h (ExpoPedometerAdapter.listeners s)
       | None => ExpoPedometerAdapter.listeners s
       end
  /\ (forall h,
         ExpoPedometerAdapter.subscription (ExpoPedometerAdapter.this s) = Some h ->
         ~ In h (map fst (ExpoPedometerAdapter.listeners
                            (ExpoPedometerAdapter.cleanup s))))
  /\ ExpoPedometerAdapter.lastStepCount
       (ExpoPedometerAdapter.this (ExpoPedometerAdapter.cleanup s))
     = ExpoPedometerAdapter.lastStepCount (ExpoPedometerAdapter.this s)
  /\ ExpoPedometerAdapter.nextHandle (ExpoPedometerAdapter.cleanup s)
     = ExpoPedometerAdapter.nextHandle s
  /\ ExpoPedometerAdapter.lastStepCount
       (ExpoPedometerAdapter.this (ExpoPedometerAdapter.stopStepCounting s))
     = ofZ 0
  /\ ExpoPedometerAdapter.lastStepCount
       (ExpoPedometerAdapter.this
          (ExpoPedometerAdapter.startStepCounting callback
             (ExpoPedometerAdapter.cleanup s)))
     = ExpoPedometerAdapter.lastStepCount (ExpoPedometerAdapter.this s)
  /\ let reached := snd (expoRun env ops w) in
     let baseline :=
       ExpoPedometerAdapter.lastStepCount (ExpoPedometerAdapter.this reached) in
     fst (fst (ExpoPedometerAdapter.notify env steps
                 (ExpoPedometerAdapter.startStepCounting callback
                    (ExpoPedometerAdapter.cleanup reached)) w'))
     = [(callback,
         {| StepUpdate.steps := steps;
            StepUpdate.timestamp := clock env (clockReads w');
            StepUpdate.stepsSinceLastUpdate :=
              if JS.gt (steps - baseline)%js (ofZ 0)
              then Some (steps - baseline)%js else None |})].
Proof.
  assert (ExpoPedometerAdapter.lastStepCount
            (ExpoPedometerAdapter.this (ExpoPedometerAdapter.cleanup s))
          = ExpoPedometerAdapter.lastStepCount (ExpoPedometerAdapter.this s)) as Hb.
  { unfold ExpoPedometerAdapter.cleanup.
    destruct (ExpoPedometerAdapter.subscription (ExpoPedometerAdapter.this s));
      reflexivity. }
  split; [|split; [|split; [|split; [|split; [|split; [|split]]]]]].
  - unfold ExpoPedometerAdapter.cleanup.
    destruct (ExpoPedometerAdapter.subscription (ExpoPedometerAdapter.this s)) eqn:E;
      [reflexivity | exact E].
  - unfold ExpoPedometerAdapter.cleanup.
    destruct (ExpoPedometerAdapter.subscription (ExpoPedometerAdapter.this s));
      reflexivity.
  - intros h Hh. unfold ExpoPedometerAdapter.cleanup. rewrite Hh. cbn.
    apply remove_not_In.
  - exact Hb.
  - unfold ExpoPedometerAdapter.cleanup.
    destruct (ExpoPedometerAdapter.subscription (ExpoPedometerAdapter.this s));
      reflexivity.
  - reflexivity.
  - exact Hb.
  - cbv zeta.
    pose proof (expo_run_single env ops _ None w expo_init_single) as H.
    fold (expoRun env ops w) in H.
    set (reached := snd (expoRun env ops w)) in *.
    pose proof (expo_cleanup_single reached _ H) as [Hs Hl].
    assert (ExpoPedometerAdapter.lastStepCount
              (ExpoPedometerAdapter.this (ExpoPedometerAdapter.cleanup reached))
            = ExpoPedometerAdapter.lastStepCount (ExpoPedometerAdapter.this reached))
      as Hb'.
    { unfold ExpoPedometerAdapter.cleanup.
      destruct (ExpoPedometerAdapter.subscription
                  (ExpoPedometerAdapter.this reached)); reflexivity. }
    unfold ExpoPedometerAdapter.notify, ExpoPedometerAdapter.startStepCounting.
    cbn [ExpoPedometerAdapter.listeners ExpoPedometerAdapter.this
           ExpoPedometerAdapter.lastStepCount ExpoPedometerAdapter.subscription].
    rewrite Hs, Hl, Hb'. reflexivity.
Qed.

(** A run with two callbacks: after the cleanup the second callback's first
    update is counted from the 1000 steps the first callback saw; after a stop
    it is counted from 0. *)
Lemma expo_baseline_after_cleanup_and_after_stop :
  map (fun e => (fst e, StepUpdate.stepsSinceLastUpdate (snd e)))
    (fst (expoRun sampleEnv
            [Start 1%nat; Tick (ofZ 1000); Cleanup; Start 2%nat; Tick (ofZ 1010)]
            startWorld))
  = [(1%nat, Some (ofZ 1000)); (2%nat, Some (ofZ 10))]
  /\ map (fun e => (fst e, StepUpdate.stepsSinceLastUpdate (snd e)))
       (fst (expoRun sampleEnv
               [Start 1%nat; Tick (ofZ 1000); Stop; Start 2%nat; Tick (ofZ 1010)]
               startWorld))
     = [(1%nat, Some (ofZ 1000)); (2%nat, Some (ofZ 1010))].
Proof. split; vm_compute; reflexivity. Qed.

(** Two starts in a row leave one listener: a tick reaches the second
    callback only. *)
Lemma two_starts_one_emission :
  map fst (fst (expoRun sampleEnv [Start 1%nat; Start 2%nat; Tick (ofZ 5)] startWorld))
  = [2%nat]
  /\ map fst (fst (mockRun sampleEnv [Start 1%nat; Start 2%nat; Tick (ofZ 0)] startWorld))
     = [2%nat].
Proof. split; vm_compute; reflexivity. Qed.

(** ** getHistoricalSteps: how many records, in which order *)

Lemma atTime_addDays (tz : Z) (d : Date.t) (i h m s : Z) :
  Date.atTime tz (Date.addDays d (- i)) h m s
  = Date.atTime tz d h m s - i * Date.msPerDay.
Proof.
  unfold Date.atTime, Date.makeLocal, Date.localDay, Date.addDays, Date.t in *.
  replace (d + - i * Date.msPerDay + tz) with (d + tz + (- i) * Date.msPerDay)
    by (unfold Date.msPerDay; lia).
  rewrite Z.div_add by (unfold Date.msPerDay; lia).
  unfold Date.msPerDay. lia.
Qed.

(** Start dates that go back one day per index come out ascending once the
    list is reversed. *)
Lemma rev_days_ascending (c : Z) (n : nat) :
  StronglySorted Z.lt
    (rev (map (fun i => c - i * Date.msPerDay) (map Z.of_nat (seq 0 n)))).
Proof.
  induction n as [|n IH]; [constructor|].
  rewrite seq_S, !map_app, rev_app_distr. cbn [map rev app].
  constructor; [exact IH|].
  apply Forall_forall. intros x Hx. apply in_rev in Hx.
  apply in_map_iff in Hx. destruct Hx as (i & <- & Hi).
  apply in_map_iff in Hi. destruct Hi as (k & <- & Hk).
  apply in_seq in Hk. unfold Date.msPerDay. lia.
Qed.

Lemma expo_getHistoricalSteps_startDates (env : Env) (days : Z) (w : World) :
  map (fun d => StepData.startDate (DailyStepData.base d))
    (fst (ExpoPedometerAdapter.getHistoricalSteps env days w))
  = rev (map (fun i => Date.atTime (tz env) (clock env (clockReads w)) 0 0 0
                       - i * Date.msPerDay) (range days)).
Proof.
  unfold ExpoPedometerAdapter.getHistoricalSteps, bind at 1.
  unfold newDate at 1. unfold bind at 1.
  match goal with
  | |- context [mapM ?f ?l ?w] =>
      pose proof (fun g g' => @mapM_map _ _ Z g g' f l w) as H;
      destruct (mapM f l w) as [data w2]
  end.
  cbn [ret fst] in *. rewrite map_rev. f_equal. apply H.
  intros i w'. unfold bind.
  rewrite expo_getStepCount_run. cbn [fst snd].
  destruct (ExpoPedometerAdapter.getHourlyBreakdown env _ _ _) as [hourly w3].
  cbn [fst DailyStepData.base].
  rewrite <- atTime_addDays.
  destruct (stepCountAsync env _ _ _); reflexivity.
Qed.

Lemma mock_getHistoricalSteps_startDates (env : Env) (days : Z) (w : World) :
  map (fun d => StepData.startDate (DailyStepData.base d))
    (fst (MockSensorAdapter.getHistoricalSteps env days w))
  = rev (map (fun i => Date.atTime (tz env) (clock env (clockReads w)) 0 0 0
                       - i * Date.msPerDay) (range days)).
Proof.
  unfold MockSensorAdapter.getHistoricalSteps, bind at 1.
  unfold newDate at 1. unfold bind at 1.
  match goal with
  | |- context [mapM ?f ?l ?w] =>
      pose proof (fun g g' => @mapM_map _ _ Z g g' f l w) as H;
      destruct (mapM f l w) as [data w2]
  end.
  cbn [ret fst] in *. rewrite map_rev. f_equal. apply H.
  intros i w'. unfold bind.
  destruct (mathRandom env w') as [r w''].
  destruct (MockSensorAdapter.generateHourlyData env _ _) as [hourly w3].
  cbn [fst DailyStepData.base StepData.startDate ret].
  now rewrite <- atTime_addDays.
Qed.

Lemma expo_getHistoricalSteps_length (env : Env) (days : Z) (w : World) :
  List.length (fst (ExpoPedometerAdapter.getHistoricalSteps env days w))
  = Z.to_nat days.
Proof.
  unfold ExpoPedometerAdapter.getHistoricalSteps, bind at 1.
  destruct (newDate env w) as [today w1].
  unfold bind at 1.
  match goal with
  | |- context [mapM ?f ?l ?w] =>
      pose proof (mapM_length f l w) as H;
      destruct (mapM f l w) as [data w2]
  end.
  cbn [ret fst] in *. now rewrite length_rev, H, range_length.
Qed.

Lemma expo_getHistoricalSteps_hours (env : Env) (days : Z) (w : World) :
  Forall (fun d => map HourlyStepData.hour (DailyStepData.hourlyData d)
                   = map ofZ (range 24))
    (fst (ExpoPedometerAdapter.getHistoricalSteps env days w)).
Proof.
  unfold ExpoPedometerAdapter.getHistoricalSteps, bind at 1.
  destruct (newDate env w) as [today w1].
  unfold bind at 1.
  match goal with
  | |- context [mapM ?f ?l ?w] =>
      pose proof (fun P => mapM_Forall P f l w) as H;
      destruct (mapM f l w) as [data w2]
  end.
  cbn [ret fst]. apply Forall_rev. apply H.
  intros i w' _. unfold bind.
  destruct (ExpoPedometerAdapter.getStepCount env _ _ w') as [dayData w''].
  match goal with
  | |- context [ExpoPedometerAdapter.getHourlyBreakdown env ?a ?b w''] =>
      pose proof (@mapM_map Z _ _ HourlyStepData.hour ofZ) as Hm;
      unfold ExpoPedometerAdapter.getHourlyBreakdown
  end.
  match goal with
  | |- context [mapM ?f ?l w''] =>
      specialize (Hm f l w''); destruct (mapM f l w'') as [hourly w3]
  end.
  cbn [fst DailyStepData.hourlyData ret] in *. apply Hm.
  intros hour w4. unfold bind, getStepCountAsync.
  destruct (stepCountAsync env _ _ _); reflexivity.
Qed.

(** X1. The hardware adapter keeps what C1 asks of [getHistoricalSteps]: [days]
    records (none when [days <= 0]), start dates strictly ascending, 24
    hourly entries each, for the hours 0 to 23 in order. *)
Theorem expo_getHistoricalSteps_shape (env : Env) (days : Z) (w : World) :
  let r := fst (ExpoPedometerAdapter.getHistoricalSteps env days w) in
  List.length r = Z.to_nat days
  /\ (days <= 0 -> r = [])
  /\ StronglySorted Z.lt (map (fun d => StepData.startDate (DailyStepData.base d)) r)
  /\ Forall (fun d =>
               List.length (DailyStepData.hourlyData d) = 24%nat
               /\ map HourlyStepData.hour (DailyStepData.hourlyData d)
                  = map ofZ [0; 1; 2; 3; 4; 5; 6; 7; 8; 9; 10; 11; 12; 13; 14;
                             15; 16; 17; 18; 19; 20; 21; 22; 23]) r.
Proof.
  cbv zeta. split; [apply expo_getHistoricalSteps_length|]. split; [|split].
  - intros Hd. apply length_zero_iff_nil.
    rewrite expo_getHistoricalSteps_length. lia.
  - rewrite expo_getHistoricalSteps_startDates. apply rev_days_ascending.
  - eapply Forall_impl; [|apply expo_getHistoricalSteps_hours].
    intros d Hm. split; [|exact Hm].
    rewrite <- (length_map HourlyStepData.hour), Hm. reflexivity.
Qed.

Lemma expo_getHistoricalSteps_shape_witness :
  let r := fst (ExpoPedometerAdapter.getHistoricalSteps sampleEnv 0 startWorld) in
  List.length r = Z.to_nat 0 /\ r = [].
Proof.
  cbv zeta.
  destruct (expo_getHistoricalSteps_shape sampleEnv 0 startWorld) as (H1 & H2 & _).
  split; [exact H1 | apply H2; lia].
Defined.

(** X2. The mock adapter keeps the rest of C1: [days] records (none when
    [days <= 0]), start dates strictly ascending. *)
Theorem mock_getHistoricalSteps_order (env : Env) (days : Z) (w : World) :
  let r := fst (MockSensorAdapter.getHistoricalSteps env days w) in
  List.length r = Z.to_nat days
  /\ (days <= 0 -> r = [])
  /\ StronglySorted Z.lt (map (fun d => StepData.startDate (DailyStepData.base d)) r).
Proof.
  cbv zeta. split; [apply mock_getHistoricalSteps_length|]. split.
  - intros Hd. apply length_zero_iff_nil.
    rewrite mock_getHistoricalSteps_length. lia.
  - rewrite mock_getHistoricalSteps_startDates. apply rev_days_ascending.
Qed.

Lemma mock_getHistoricalSteps_order_witness :
  let r := fst (MockSensorAdapter.getHistoricalSteps sampleEnv (-3) startWorld) in
  List.length r = Z.to_nat (-3) /\ r = [].
Proof.
  cbv zeta.
  destruct (mock_getHistoricalSteps_order sampleEnv (-3) startWorld) as (H1 & H2 & _).
  split; [exact H1 | apply H2; lia].
Defined.

(** ** The mock breakdown, for any total *)

Lemma add_ofZ (a b : Z) : (ofZ a + ofZ b)%js = ofZ (a + b).
Proof.
  unfold JS.add, ofZ, num. f_equal.
  rewrite <- (Qred_ofZ (a + b)). apply Qred_complete.
  unfold Qeq, Qplus; simpl. lia.
Qed.

Lemma floor_percent (total a : Z) :
  JS.floor (ofZ total * num (a # 100))%js = ofZ (total * a / 100).
Proof.
  unfold ofZ at 1, num at 1. rewrite mul_Num, floor_num. f_equal.
  assert ((total # 1) * Qred (a # 100) == (total * a # 100)) as E.
  { rewrite Qred_correct. unfold Qeq, Qmult; simpl. lia. }
  rewrite E. reflexivity.
Qed.

(** X3. For a day of [total] steps the hourly entries of [generateHourlyData]
    add up to more than [1.45 * total - 25] and to at most [1.45 * total]:
    to more than [total] as soon as [total >= 56]. *)
Theorem mock_hourly_sum_bounds (env : Env) (w : World) (total : Z) :
  exists k : Z,
    sumSteps (fst (MockSensorAdapter.generateHourlyData env (ofZ total) w)) = ofZ k
    /\ 145 * total - 2500 < 100 * k <= 145 * total
    /\ (56 <= total -> total < k).
Proof.
  rewrite sumSteps_map, mock_generateHourlyData_steps.
  unfold MockSensorAdapter.distribution. cbn [map fold_left].
  rewrite !floor_percent, !add_ofZ.
  eexists. split; [reflexivity|].
  split; [|intros H]; Z.to_euclidean_division_equations; lia.
Qed.

Lemma mock_hourly_sum_bounds_witness :
  exists k : Z,
    sumSteps (fst (MockSensorAdapter.generateHourlyData sampleEnv (ofZ 4000)
                     startWorld)) = ofZ k
    /\ 4000 < k.
Proof.
  destruct (mock_hourly_sum_bounds sampleEnv startWorld 4000) as (k & E & _ & H).
  exists k. split; [exact E | apply H; lia].
Defined.

(** ** The diurnal profile *)

Lemma sumHours_late (fuel : nat) (currentHour hour : Z) (total : number) :
  23 <= currentHour ->
  MockSensorAdapter.sumHours fuel currentHour hour total
  = MockSensorAdapter.sumHours fuel 23 hour total.
Proof.
  intros H. revert hour total.
  induction fuel as [|f IH]; intros hour total; [reflexivity|].
  cbn [MockSensorAdapter.sumHours].
  destruct (Z.ltb_spec hour 24).
  - replace (hour <=? currentHour) with true by (symmetry; apply Z.leb_le; lia).
    replace (hour <=? 23) with true by (symmetry; apply Z.leb_le; lia).
    cbn [andb]. apply IH.
  - now rewrite !andb_false_r.
Qed.

Lemma generateRealisticDailySteps_early (currentHour : Z) :
  currentHour < 0 ->
  MockSensorAdapter.generateRealisticDailySteps currentHour = ofZ 0.
Proof.
  intros H. unfold MockSensorAdapter.generateRealisticDailySteps.
  cbn [MockSensorAdapter.sumHours].
  now replace (0 <=? currentHour) with false by (symmetry; apply Z.leb_gt; lia).
Qed.

Lemma diurnal_table_monotone :
  forallb (fun h1 =>
             forallb (fun h2 =>
                        implb (h1 <=? h2)
                          (JS.ge (MockSensorAdapter.generateRealisticDailySteps h2)
                             (MockSensorAdapter.generateRealisticDailySteps h1)))
               (range 24))
    (range 24) = true.
Proof. vm_compute. reflexivity. Qed.

Lemma range24_In (h : Z) : 0 <= h < 24 -> In h (range 24).
Proof.
  intros H. unfold range. apply in_map_iff.
  exists (Z.to_nat h). split; [lia|]. apply in_seq. simpl. lia.
Qed.

(** X4. The steps [MockSensorAdapter.getTodaySteps] reports do not decrease with
    the hour of the day: at hour 10 they are at least those at hour 5. *)
Theorem diurnal_steps_nondecreasing (h1 h2 : Z) :
  h1 <= h2 ->
  JS.ge (MockSensorAdapter.generateRealisticDailySteps h2)
    (MockSensorAdapter.generateRealisticDailySteps h1) = true.
Proof.
  intros H.
  assert (forall a b, 0 <= a < 24 -> 0 <= b < 24 -> a <= b ->
                      JS.ge (MockSensorAdapter.generateRealisticDailySteps b)
                        (MockSensorAdapter.generateRealisticDailySteps a) = true)
    as Hin.
  { intros a b Ha Hb Hab.
    pose proof diurnal_table_monotone as T.
    rewrite forallb_forall in T. specialize (T a (range24_In a Ha)).
    rewrite forallb_forall in T. specialize (T b (range24_In b Hb)).
    replace (a <=? b) with true in T by (symmetry; apply Z.leb_le; lia).
    exact T. }
  assert (forall h, 23 <= h ->
                    MockSensorAdapter.generateRealisticDailySteps h
                    = MockSensorAdapter.generateRealisticDailySteps 23) as Hlate.
  { intros h Hh. unfold MockSensorAdapter.generateRealisticDailySteps.
    now apply sumHours_late. }
  destruct (Z.lt_ge_cases h1 0) as [N1|P1].
  - rewrite (generateRealisticDailySteps_early h1 N1).
    destruct (Z.lt_ge_cases h2 0) as [N2|P2].
    + now rewrite (generateRealisticDailySteps_early h2 N2).
    + destruct (Z.lt_ge_cases h2 23) as [L2|G2].
      * specialize (Hin 0 h2 ltac:(lia) ltac:(lia) ltac:(lia)).
        revert Hin. generalize (MockSensorAdapter.generateRealisticDailySteps h2).
        intros n Hn. destruct n as [q| | |]; try discriminate; try reflexivity.
        cbn in *. apply Qle_bool_iff. apply Qle_bool_iff in Hn.
        eapply Qle_trans; [|exact Hn]. discriminate.
      * rewrite (Hlate h2 G2). reflexivity.
  - destruct (Z.lt_ge_cases h2 23) as [L2|G2].
    + apply Hin; lia.
    + rewrite (Hlate h2 G2).
      destruct (Z.lt_ge_cases h1 23) as [L1|G1].
      * apply Hin; lia.
      * rewrite (Hlate h1 G1). reflexivity.
Qed.

Lemma diurnal_steps_nondecreasing_witness :
  JS.ge (MockSensorAdapter.generateRealisticDailySteps 10)
    (MockSensorAdapter.generateRealisticDailySteps 5) = true.
Proof. apply (diurnal_steps_nondecreasing 5 10). lia. Defined.

(** ** More of the contract *)

(** X5. [stopStepCounting] and the cleanup function may be called again, or with
    nothing running: a second call changes nothing, and on a fresh instance
    the first changes nothing either. *)
Theorem stop_and_cleanup_idempotent :
  (forall s, ExpoPedometerAdapter.stopStepCounting (ExpoPedometerAdapter.stopStepCounting s)
             = ExpoPedometerAdapter.stopStepCounting s)
  /\ (forall s, ExpoPedometerAdapter.cleanup (ExpoPedometerAdapter.cleanup s)
                = ExpoPedometerAdapter.cleanup s)
  /\ (forall s, MockSensorAdapter.stopStepCounting (MockSensorAdapter.stopStepCounting s)
                = MockSensorAdapter.stopStepCounting s)
  /\ ExpoPedometerAdapter.stopStepCounting ExpoPedometerAdapter.init
     = ExpoPedometerAdapter.init
  /\ ExpoPedometerAdapter.cleanup ExpoPedometerAdapter.init
     = ExpoPedometerAdapter.init
  /\ MockSensorAdapter.stopStepCounting MockSensorAdapter.init
     = MockSensorAdapter.init.
Proof.
  split; [|split; [|split; [|repeat split]]].
  - intros s. reflexivity.
  - intros s. unfold ExpoPedometerAdapter.cleanup.
    destruct (ExpoPedometerAdapter.subscription (ExpoPedometerAdapter.this s)) eqn:E.
    + reflexivity.
    + now rewrite E.
  - intros s. reflexivity.
Qed.

(** X6. After [stopStepCounting] the baseline is 0 again: the first update of a
    new subscription reports its steps against 0, not against what an earlier
    subscription saw. *)
Theorem expo_stop_resets_baseline
  (env : Env) (ops : list Op) (w w' : World) (callback : Callback)
  (steps : number) :
  fst (fst (ExpoPedometerAdapter.notify env steps
              (ExpoPedometerAdapter.startStepCounting callback
                 (ExpoPedometerAdapter.stopStepCounting (snd (expoRun env ops w))))
              w'))
  = [(callback,
      {| StepUpdate.steps := steps;
         StepUpdate.timestamp := clock env (clockReads w');
         StepUpdate.stepsSinceLastUpdate :=
           if JS.gt (steps - ofZ 0)%js (ofZ 0)
           then Some (steps - ofZ 0)%js else None |})].
Proof.
  pose proof (expo_run_single env ops _ None w expo_init_single) as H.
  fold (expoRun env ops w) in H.
  pose proof (expo_stop_single _ _ H) as [Hs Hl].
  unfold ExpoPedometerAdapter.notify, ExpoPedometerAdapter.startStepCounting.
  rewrite Hs, Hl. reflexivity.
Qed.

(** What a listener of the Expo adapter emits: the cumulative count as it
    came, and the difference to the last count only when it is positive. A
    count that went down is passed on without a delta. *)
Lemma expo_listener_delta (env : Env) (callback : Callback) (steps : number)
  (st : ExpoPedometerAdapter.State) (w : World) :
  let r := fst (ExpoPedometerAdapter.listener env callback steps st w) in
  let delta := (steps - ExpoPedometerAdapter.lastStepCount st)%js in
  fst (fst r) = callback
  /\ StepUpdate.steps (snd (fst r)) = steps
  /\ StepUpdate.stepsSinceLastUpdate (snd (fst r))
     = (if JS.gt delta (ofZ 0) then Some delta else None)
  /\ ExpoPedometerAdapter.lastStepCount (snd r) = steps
  /\ ExpoPedometerAdapter.subscription (snd r)
     = ExpoPedometerAdapter.subscription st.
Proof. cbv zeta. repeat split. Qed.

Lemma expo_listener_counter_reset :
  map (fun e => (StepUpdate.steps (snd e), StepUpdate.stepsSinceLastUpdate (snd e)))
    (fst (expoRun sampleEnv [Start 1%nat; Tick (ofZ 500); Tick (ofZ 20); Tick (ofZ 25)]
            startWorld))
  = [(ofZ 500, Some (ofZ 500)); (ofZ 20, None); (ofZ 25, Some (ofZ 5))].
Proof. vm_compute. reflexivity. Qed.

(** X8. Each tick of the mock timer adds between 1 and 5 steps to the running
    total, when [Math.random()] is in [0, 1). *)
Theorem mock_tick_increment (env : Env) (callback : Callback)
  (st : MockSensorAdapter.State) (w : World) :
  (0 <= random env (randomDraws w) < 1)%Q ->
  exists k : Z,
    1 <= k <= 5
    /\ let r := fst (MockSensorAdapter.onInterval env callback st w) in
       StepUpdate.stepsSinceLastUpdate (snd (fst r)) = Some (ofZ k)
       /\ StepUpdate.steps (snd (fst r))
          = (MockSensorAdapter.currentSteps st + ofZ k)%js
       /\ MockSensorAdapter.currentSteps (snd r)
          = (MockSensorAdapter.currentSteps st + ofZ k)%js.
Proof.
  intros [Hlo Hhi].
  exists (Qfloor (random env (randomDraws w) * 5) + 1).
  assert (0 <= Qfloor (random env (randomDraws w) * 5) < 5) as Hf.
  { split.
    - change 0 with (Qfloor 0). apply Qfloor_resp_le. lra.
    - assert (inject_Z (Qfloor (random env (randomDraws w) * 5))
              <= random env (randomDraws w) * 5)%Q as Hle by apply Qfloor_le.
      rewrite Zlt_Qlt. change (inject_Z 5) with 5%Q. lra. }
  split; [lia|].
  cbv zeta. unfold MockSensorAdapter.onInterval, bind, mathRandom, newDate, ret.
  cbn [fst snd StepUpdate.stepsSinceLastUpdate StepUpdate.steps
         MockSensorAdapter.currentSteps].
  assert ((JS.floor (num (random env (randomDraws w)) * ofZ 5) + ofZ 1)%js
          = ofZ (Qfloor (random env (randomDraws w) * 5) + 1)) as E.
  { unfold num at 1, ofZ at 1. rewrite mul_Num, floor_num.
    rewrite Qred_correct. apply add_ofZ. }
  rewrite E. repeat split.
Qed.

Lemma mock_tick_increment_witness :
  exists k : Z,
    1 <= k <= 5
    /\ StepUpdate.stepsSinceLastUpdate
         (snd (fst (fst (MockSensorAdapter.onInterval sampleEnv 7%nat
                           (MockSensorAdapter.this MockSensorAdapter.init)
                           startWorld))))
       = Some (ofZ k).
Proof.
  destruct (mock_tick_increment sampleEnv 7%nat
              (MockSensorAdapter.this MockSensorAdapter.init) startWorld)
    as (k & Hk & H & _).
  - split; [discriminate | reflexivity].
  - exists k. split; [exact Hk | exact H].
Defined.

(** ** The other formulas of the calculator *)

Lemma mul_num_Num (a b : Q) : (num a * Num b)%js = num (a * b).
Proof. unfold num at 1. rewrite mul_Num. apply num_ext. now rewrite Qred_correct. Qed.





(** ** Availability and permissions *)

(** X11. The permission the Expo adapter reports follows the availability it
    reports for the same answer of the pedometer: granted, and askable again,
    exactly when the pedometer resolved to true; denied otherwise, also when
    the probe rejects; never undetermined. The availability carries an error
    exactly when it is not available, and the sensor type exactly when it
    is. The mock adapter is always available and granted. *)
Theorem expo_permission_follows_availability (probe : ProbeResult) :
  let a := ExpoPedometerAdapter.isAvailable probe in
  let p := ExpoPedometerAdapter.requestPermissions probe in
  (SensorAvailability.isAvailable a = true <-> probe = Resolves true)
  /\ SensorPermission.granted p = SensorAvailability.isAvailable a
  /\ SensorPermission.canAskAgain p = SensorAvailability.isAvailable a
  /\ SensorPermission.status p
     = (if SensorAvailability.isAvailable a then granted else denied)
  /\ (SensorAvailability.error a = None <-> SensorAvailability.isAvailable a = true)
  /\ (SensorAvailability.sensorType a = Some SensorType.pedometer
      <-> SensorAvailability.isAvailable a = true)
  /\ SensorPermission.granted MockSensorAdapter.requestPermissions
     = SensorAvailability.isAvailable MockSensorAdapter.isAvailable.
Proof.
  cbv zeta. destruct probe as [[|]|message|]; cbn;
    repeat split; intros; try reflexivity; try discriminate; congruence.
Qed.

(** ** Steps for a calorie goal *)

Lemma isPos_num (q : Q) : isPos (num q) = isPos (Num q).
Proof.
  unfold num, isPos, Qsign.
  pose proof (Qred_correct q) as E. unfold Qeq in E.
  destruct (Qred q) as [a b], q as [c d]; cbn [Qnum Qden] in *.
  destruct a, c; cbn; try reflexivity; lia.
Qed.

Lemma div_num_Num (a b : Q) : ~ b == 0 -> (num a / Num b)%js = num (a / b).
Proof.
  intros H. unfold num at 1. rewrite div_Num by assumption.
  apply num_ext. now rewrite Qred_correct.
Qed.






(** ** Divisors that are not guarded *)

Lemma div_by_zero_not_finite (x : number) :
  isFinite (x / Num 0)%js = false.
Proof.
  destruct x as [q| | |]; try reflexivity.
  unfold JS.div. change (Qsign 0) with Eq.
  destruct (isPos (Num q)) as [[|]|]; reflexivity.
Qed.

Lemma mul_not_finite (x y : number) :
  isFinite x = false -> isFinite (x * y)%js = false.
Proof.
  intros H. destruct x as [q| | |]; try discriminate; destruct y as [r| | |];
    try reflexivity; unfold JS.mul;
    match goal with
    | |- context [isPos (Num ?r)] => destruct (isPos (Num r)) as [[|]|]; reflexivity
    end.
Qed.

Lemma ceil_floor_not_finite (x : number) :
  isFinite x = false ->
  isFinite (JS.ceil x) = false /\ isFinite (JS.floor x) = false.
Proof. destruct x; try discriminate; now split. Qed.

(** X13. Only [calculatePace] guards its divisor. With 0 steps per minute,
    a stride of 0 or a weight of 0, [calculateActiveMinutes],
    [stepsForDistance] and [stepsForCalories] return [Infinity], [-Infinity]
    or [NaN] for every finite argument, never a finite number. *)
Theorem unguarded_zero_divisors (x : Q) :
  isFinite (StepCalculator.calculateActiveMinutes (Num x) (Some (ofZ 0))) = false
  /\ isFinite (StepCalculator.stepsForDistance (Num x) (Some (ofZ 0))) = false
  /\ isFinite (StepCalculator.stepsForCalories (Num x) (Some (ofZ 0))) = false
  /\ isFinite (StepCalculator.calculatePace (Num x) (ofZ 0)) = true.
Proof.
  split; [|split; [|split]].
  - apply ceil_floor_not_finite, div_by_zero_not_finite.
  - apply ceil_floor_not_finite, div_by_zero_not_finite.
  - unfold StepCalculator.stepsForCalories, StepCalculator.or_default.
    apply ceil_floor_not_finite, mul_not_finite.
    change (ofZ 0 / StepCalculator.DEFAULT_WEIGHT_KG)%js with (Num 0).
    apply div_by_zero_not_finite.
  - reflexivity.
Qed.

(** ** Integer arithmetic on numbers *)

Lemma neg_ofZ (a : Z) : JS.neg (ofZ a) = ofZ (- a).
Proof.
  unfold JS.neg, ofZ, num. f_equal. rewrite <- (Qred_ofZ (- a)).
  apply Qred_complete. reflexivity.
Qed.

Lemma sub_ofZ (a b : Z) : (ofZ a - ofZ b)%js = ofZ (a - b).
Proof. unfold JS.sub. now rewrite neg_ofZ, add_ofZ. Qed.


Lemma ge_ofZ (a b : Z) : JS.ge (ofZ a) (ofZ b) = (b <=? a).
Proof.
  unfold JS.ge, ofZ, Qle_bool. cbn [Qnum Qden]. now rewrite !Z.mul_1_r.
Qed.


Lemma floor_random_times (r : Q) (n : Z) :
  (0 <= r < 1)%Q -> 0 < n ->
  exists v, JS.floor (num r * ofZ n)%js = ofZ v /\ 0 <= v < n.
Proof.
  intros [Hlo Hhi] Hn. exists (Qfloor (r * inject_Z n)). split.
  - unfold ofZ at 1. rewrite mul_num_Num, floor_num. reflexivity.
  - assert (0 < inject_Z n)%Q as Hq
      by (change 0%Q with (inject_Z 0); now rewrite <- Zlt_Qlt).
    split.
    + change 0 with (Qfloor 0). apply Qfloor_resp_le.
      apply Qmult_le_0_compat; lra.
    + rewrite Zlt_Qlt. eapply Qle_lt_trans; [apply Qfloor_le|].
      setoid_replace (inject_Z n) with (1 * inject_Z n)%Q at 2 by ring.
      apply Qmult_lt_compat_r; assumption.
Qed.

(** ** MockSensorAdapter.getStepCount *)




(** ** What a failed query cannot be told from *)

(** X15. A query that rejects, a query that resolves to null and a query that
    resolves to 0 steps all make [ExpoPedometerAdapter.getStepCount] return
    the same record: the caller cannot tell a failure from a day without
    steps. *)
Theorem expo_getStepCount_failure_looks_like_zero
  (env : Env) (w : World) (startDate endDate : Date.t) :
  stepCountAsync env (queries w) startDate endDate = Throws
  \/ stepCountAsync env (queries w) startDate endDate = Null
  \/ stepCountAsync env (queries w) startDate endDate = Steps (ofZ 0) ->
  ExpoPedometerAdapter.getStepCount env startDate endDate w
  = (zeroStepData startDate endDate, afterQueries 1 w).
Proof.
  intros H. rewrite expo_getStepCount_run.
  destruct H as [-> | [-> | ->]]; reflexivity.
Qed.

Lemma expo_getStepCount_failure_looks_like_zero_witness :
  ExpoPedometerAdapter.getStepCount sampleEnv 0 3600000 (afterQueries 2 startWorld)
  = (zeroStepData 0 3600000, afterQueries 1 (afterQueries 2 startWorld))
  /\ ExpoPedometerAdapter.getStepCount sampleEnvOk 0 3600000 startWorld
     = (zeroStepData 0 3600000, afterQueries 1 startWorld).
Proof.
  split.
  - apply (expo_getStepCount_failure_looks_like_zero sampleEnv). left. reflexivity.
  - apply (expo_getStepCount_failure_looks_like_zero sampleEnvOk). right. right.
    reflexivity.
Defined.

(** ** The days of getHistoricalSteps *)

Lemma localDay_atTime (tz : Z) (d : Date.t) :
  Date.localDay tz (Date.atTime tz d 0 0 0) = Date.localDay tz d.
Proof.
  unfold Date.atTime, Date.makeLocal, Date.localDay, Date.t in *.
  unfold Date.msPerDay, Date.msPerHour, Date.msPerMinute, Date.msPerSecond.
  Z.to_euclidean_division_equations. lia.
Qed.

Lemma getDay_atTime (tz : Z) (d : Date.t) :
  Date.getDay tz (Date.atTime tz d 0 0 0) = Date.getDay tz d.
Proof. unfold Date.getDay. now rewrite localDay_atTime. Qed.

(** X16. When every [Math.random()] is in [0, 1), each record of
    [MockSensorAdapter.getHistoricalSteps] has an integer number of steps from
    4000 to 14999, from 7000 to 11999 when its day is not a Saturday or a
    Sunday; its goal is 10000 and [goalMet] says whether the steps reach
    it. *)
Theorem mock_getHistoricalSteps_ranges (env : Env) (days : Z) (w : World) :
  (forall n, 0 <= random env n < 1)%Q ->
  Forall (fun d =>
            exists k : Z,
              StepData.steps (DailyStepData.base d) = ofZ k
              /\ 4000 <= k < 15000
              /\ (Date.getDay (tz env) (StepData.startDate (DailyStepData.base d)) <> 0
                  /\ Date.getDay (tz env) (StepData.startDate (DailyStepData.base d)) <> 6
                  -> 7000 <= k < 12000)
              /\ DailyStepData.goalTarget d = ofZ 10000
              /\ DailyStepData.goalMet d = (10000 <=? k))
    (fst (MockSensorAdapter.getHistoricalSteps env days w)).
Proof.
  intros Hr.
  unfold MockSensorAdapter.getHistoricalSteps, bind at 1.
  destruct (newDate env w) as [today w1].
  unfold bind at 1.
  match goal with
  | |- context [mapM ?f ?l ?w] =>
      pose proof (fun P => mapM_Forall P f l w) as H;
      destruct (mapM f l w) as [data w2]
  end.
  cbn [ret fst]. apply Forall_rev. apply H.
  intros i w' _. unfold bind, mathRandom.
  destruct (MockSensorAdapter.generateHourlyData env _ _) as [hourly w3].
  cbn [fst ret DailyStepData.base DailyStepData.goalTarget DailyStepData.goalMet
         StepData.steps StepData.startDate].
  rewrite getDay_atTime.
  destruct (floor_random_times _ 11000 (Hr (randomDraws w')) ltac:(lia))
    as (a & Ea & Ha).
  destruct (floor_random_times _ 5000 (Hr (randomDraws w')) ltac:(lia))
    as (b & Eb & Hb).
  rewrite Ea, Eb, !add_ofZ.
  destruct (Z.eqb_spec (Date.getDay (tz env) (Date.addDays today (- i))) 0) as [E0|N0];
    [|destruct (Z.eqb_spec (Date.getDay (tz env) (Date.addDays today (- i))) 6)
        as [E6|N6]]; cbn [orb].
  - exists (a + 4000). rewrite ge_ofZ.
    repeat split; lia.
  - exists (a + 4000). rewrite ge_ofZ.
    repeat split; lia.
  - exists (b + 7000). rewrite ge_ofZ. repeat split; lia.
Qed.

Lemma mock_getHistoricalSteps_ranges_witness :
  Forall (fun d =>
            exists k : Z,
              StepData.steps (DailyStepData.base d) = ofZ k /\ 4000 <= k < 15000)
    (fst (MockSensorAdapter.getHistoricalSteps sampleEnv 3 startWorld)).
Proof.
  eapply Forall_impl;
    [|apply (mock_getHistoricalSteps_ranges sampleEnv 3 startWorld)].
  - intros d (k & E & H & _). exists k. split; [exact E | exact H].
  - intros n. split; [discriminate | reflexivity].
Defined.

(** ** What the queries cost *)

Lemma mapM_world {A B} (f : A -> M B) (l : list A) (w : World) (c r q : nat) :
  (forall a w',
      snd (f a w')
      = {| clockReads := clockReads w' + c;
           randomDraws := randomDraws w' + r;
           queries := queries w' + q |}) ->
  snd (mapM f l w)
  = {| clockReads := clockReads w + c * List.length l;
       randomDraws := randomDraws w + r * List.length l;
       queries := queries w + q * List.length l |}.
Proof.
  intros H. revert w. induction l as [|a l IH]; intros w.
  - destruct w. cbn. f_equal; lia.
  - cbn [mapM]. unfold bind, ret.
    pose proof (H a w) as Ha. destruct (f a w) as [b w1]. cbn [snd] in Ha.
    specialize (IH w1). destruct (mapM f l w1) as [bs w2]. cbn [snd] in *.
    rewrite IH, Ha. cbn [clockReads randomDraws queries List.length].
    f_equal; lia.
Qed.

Lemma expo_getHourlyBreakdown_world (env : Env) (startOfDay endOfDay : Date.t)
  (w : World) :
  snd (ExpoPedometerAdapter.getHourlyBreakdown env startOfDay endOfDay w)
  = afterQueries 24 w.
Proof.
  unfold ExpoPedometerAdapter.getHourlyBreakdown.
  rewrite (mapM_world _ _ _ 0 0 1).
  - rewrite range_length. unfold afterQueries. cbn. f_equal; lia.
  - intros a w'. rewrite expo_hourly_body_world. unfold afterQueries. cbn.
    f_equal; lia.
Qed.

Lemma mock_generateHourlyData_world (env : Env) (totalSteps : number) (w : World) :
  snd (MockSensorAdapter.generateHourlyData env totalSteps w)
  = afterClockReads 25 w.
Proof.
  unfold MockSensorAdapter.generateHourlyData.
  rewrite (mapM_world _ _ _ 1 0 0).
  - unfold afterClockReads. cbn. f_equal; lia.
  - intros [percentage hour] w'. unfold bind, newDate, ret. cbn.
    f_equal; lia.
Qed.

(** X17. [ExpoPedometerAdapter.getHistoricalSteps(days)] reads the clock
    once and asks the pedometer 25 times per day (the day, then its 24
    hours), and never draws a random number;
    [MockSensorAdapter.getHistoricalSteps(days)] never asks the pedometer: it
    draws one random number per day and reads the clock once, then 25 times
    per day. *)
Theorem getHistoricalSteps_cost (env : Env) (days : Z) (w : World) :
  snd (ExpoPedometerAdapter.getHistoricalSteps env days w)
  = {| clockReads := clockReads w + 1;
       randomDraws := randomDraws w;
       queries := queries w + 25 * Z.to_nat days |}
  /\ snd (MockSensorAdapter.getHistoricalSteps env days w)
     = {| clockReads := clockReads w + 1 + 25 * Z.to_nat days;
          randomDraws := randomDraws w + Z.to_nat days;
          queries := queries w |}.
Proof.
  split.
  - unfold ExpoPedometerAdapter.getHistoricalSteps, bind at 1.
    unfold newDate at 1. unfold bind at 1.
    match goal with
    | |- context [mapM ?f ?l ?w] =>
        pose proof (mapM_world f l w 0 0 25) as H;
        destruct (mapM f l w) as [data w2]
    end.
    cbn [ret snd] in *. rewrite H.
    + rewrite range_length. cbn. f_equal; lia.
    + intros i w'. unfold bind. rewrite expo_getStepCount_run.
      match goal with
      | |- context [ExpoPedometerAdapter.getHourlyBreakdown env ?a ?b ?w0] =>
          pose proof (expo_getHourlyBreakdown_world env a b w0) as Hh;
          destruct (ExpoPedometerAdapter.getHourlyBreakdown env a b w0) as [hourly w3]
      end.
      cbn [snd ret] in *. rewrite Hh. unfold afterQueries. cbn. f_equal; lia.
  - unfold MockSensorAdapter.getHistoricalSteps, bind at 1.
    unfold newDate at 1. unfold bind at 1.
    match goal with
    | |- context [mapM ?f ?l ?w] =>
        pose proof (mapM_world f l w 25 1 0) as H;
        destruct (mapM f l w) as [data w2]
    end.
    cbn [ret snd] in *. rewrite H.
    + rewrite range_length. cbn. f_equal; lia.
    + intros i w'. unfold bind, mathRandom.
      match goal with
      | |- context [MockSensorAdapter.generateHourlyData env ?s ?w0] =>
          pose proof (mock_generateHourlyData_world env s w0) as Hh;
          destruct (MockSensorAdapter.generateHourlyData env s w0) as [hourly w3]
      end.
      cbn [snd ret] in *. rewrite Hh. unfold afterClockReads. cbn. f_equal; lia.
Qed.





(** ** Totals and increments *)




Lemma gt_ofZ (a b : Z) : JS.gt (ofZ a) (ofZ b) = (b <? a).
Proof.
  unfold JS.gt, ofZ, Qle_bool. cbn [Qnum Qden]. rewrite !Z.mul_1_r.
  now rewrite Z.ltb_antisym.
Qed.

Lemma expo_notify_one (env : Env) (s : ExpoPedometerAdapter.System) (h : nat)
  (c : Callback) (count : number) (w : World) :
  ExpoPedometerAdapter.listeners s = [(h, c)] ->
  exists u s' w',
    ExpoPedometerAdapter.notify env count s w = ([(c, u)], s', w')
    /\ StepUpdate.steps u = count
    /\ StepUpdate.stepsSinceLastUpdate u
       = (let d := (count - ExpoPedometerAdapter.lastStepCount
                                (ExpoPedometerAdapter.this s))%js in
          if JS.gt d (ofZ 0) then Some d else None)
    /\ ExpoPedometerAdapter.lastStepCount (ExpoPedometerAdapter.this s') = count
    /\ ExpoPedometerAdapter.listeners s' = [(h, c)].
Proof.
  intros H. unfold ExpoPedometerAdapter.notify. rewrite H.
  cbn [ExpoPedometerAdapter.notifyAll].
  unfold ExpoPedometerAdapter.listener. unfold bind, ret. cbn beta.
  destruct (newDate env w) as [now w1]. cbn [fst snd].
  eexists _, _, _. split; [reflexivity|]. repeat split.
Qed.

Lemma last_cons_default {A} (a d : A) (l : list A) :
  last (a :: l) d = last l a.
Proof.
  revert a d. induction l as [|x l IH]; intros a d; [reflexivity|].
  change (last (a :: x :: l) d) with (last (x :: l) d).
  now rewrite (IH x d), (IH x a).
Qed.

Lemma expo_counts_telescope (env : Env) (counts : list Z)
  (s : ExpoPedometerAdapter.System) (h : nat) (c : Callback) (b acc : Z)
  (w : World) :
  ExpoPedometerAdapter.listeners s = [(h, c)] ->
  ExpoPedometerAdapter.lastStepCount (ExpoPedometerAdapter.this s) = ofZ b ->
  let r := fst (runOps (expoExec env) (map (fun n => Tick (ofZ n)) counts) s w) in
  map (fun e => StepUpdate.steps (snd e)) (fst r) = map ofZ counts
  /\ ExpoPedometerAdapter.lastStepCount (ExpoPedometerAdapter.this (snd r))
     = ofZ (last counts b)
  /\ (StronglySorted Z.le (b :: counts) ->
      fold_left JS.add (map (fun e => deltaOrZero (snd e)) (fst r)) (ofZ acc)
      = ofZ (acc + (last counts b - b))).
Proof.
  cbv zeta. revert s b acc w.
  induction counts as [|n counts IH]; intros s b acc w Hl Hb.
  - cbn. repeat split; [exact Hb | intros _; f_equal; lia].
  - cbn [map runOps expoExec]. unfold bind.
    destruct (expo_notify_one env s h c (ofZ n) w Hl)
      as (u & s' & w' & E & Hu & Hd & Hs & Hl').
    rewrite E. cbn [fst snd].
    specialize (IH s' n (acc + (n - b)) w' Hl' Hs).
    destruct (runOps (expoExec env) (map (fun n => Tick (ofZ n)) counts) s' w')
      as [[es s''] w''].
    cbn [fst snd ret app map fold_left] in *.
    destruct IH as (IH1 & IH2 & IH3).
    split; [now rewrite Hu, IH1|]. split.
    + now rewrite IH2, last_cons_default.
    + intros Hsorted.
      apply StronglySorted_inv in Hsorted. destruct Hsorted as [Hs1 Hs2].
      assert (b <= n) as Hbn by (apply Forall_inv in Hs2; exact Hs2).
      assert (deltaOrZero u = ofZ (n - b)) as Hdz.
      { unfold deltaOrZero. rewrite Hd, Hb. cbv zeta.
        rewrite sub_ofZ, gt_ofZ. destruct (Z.ltb_spec 0 (n - b)); [reflexivity|].
        f_equal. lia. }
      rewrite Hdz, add_ofZ, (IH3 Hs1). f_equal.
      rewrite last_cons_default. lia.
Qed.

(** X7. A listener of the Expo adapter passes each cumulative count on as it
    came and leaves the last one as the new baseline. For integer counts that
    never go down, starting at or above the baseline, the increments reported
    add up to the last count minus the baseline the subscription started
    with. *)
Theorem expo_increments_add_up (env : Env) (counts : list Z)
  (s : ExpoPedometerAdapter.System) (h : nat) (c : Callback) (b : Z) (w : World) :
  ExpoPedometerAdapter.listeners s = [(h, c)] ->
  ExpoPedometerAdapter.lastStepCount (ExpoPedometerAdapter.this s) = ofZ b ->
  StronglySorted Z.le (b :: counts) ->
  let r := fst (runOps (expoExec env) (map (fun n => Tick (ofZ n)) counts) s w) in
  map (fun e => StepUpdate.steps (snd e)) (fst r) = map ofZ counts
  /\ ExpoPedometerAdapter.lastStepCount (ExpoPedometerAdapter.this (snd r))
     = ofZ (last counts b)
  /\ fold_left JS.add (map (fun e => deltaOrZero (snd e)) (fst r)) (ofZ 0)
     = ofZ (last counts b - b).
Proof.
  intros Hl Hb Hsorted.
  destruct (expo_counts_telescope env counts s h c b 0 w Hl Hb) as (H1 & H2 & H3).
  cbv zeta. split; [exact H1|]. split; [exact H2|]. now apply H3.
Qed.

Lemma expo_increments_add_up_witness :
  let s := ExpoPedometerAdapter.startStepCounting 1%nat ExpoPedometerAdapter.init in
  let r :=
    fst (runOps (expoExec sampleEnv) (map (fun n => Tick (ofZ n)) [120; 120; 150])
           s startWorld) in
  map (fun e => StepUpdate.steps (snd e)) (fst r) = map ofZ [120; 120; 150]
  /\ ExpoPedometerAdapter.lastStepCount (ExpoPedometerAdapter.this (snd r))
     = ofZ 150
  /\ fold_left JS.add (map (fun e => deltaOrZero (snd e)) (fst r)) (ofZ 0)
     = ofZ (150 - 0).
Proof.
  cbv zeta.
  apply (expo_increments_add_up sampleEnv [120; 120; 150]
           (ExpoPedometerAdapter.startStepCounting 1%nat ExpoPedometerAdapter.init)
           0%nat 1%nat 0 startWorld).
  - reflexivity.
  - reflexivity.
  - repeat constructor; lia.
Defined.

(** ** The hook *)

Ltac hook_cells :=
  cbn [UseStepCounter.steps UseStepCounter.distance UseStepCounter.calories
       UseStepCounter.activeMinutes UseStepCounter.isCountingSteps
       UseStepCounter.isAvailable UseStepCounter.hasPermission
       UseStepCounter.todaySteps UseStepCounter.error
       UseStepCounter.sensorService UseStepCounter.cleanupFn
       UseStepCounter.world UseStepCounter.probes
       UseStepCounter.setSteps UseStepCounter.setDistance
       UseStepCounter.setCalories UseStepCounter.setActiveMinutes
       UseStepCounter.setIsCountingSteps UseStepCounter.setIsAvailable
       UseStepCounter.setHasPermission UseStepCounter.setTodaySteps
       UseStepCounter.setError UseStepCounter.withService
       UseStepCounter.withCleanupFn UseStepCounter.withWorld
       UseStepCounter.withProbes UseStepCounter.onUpdate
       UseStepCounter.initial] in *.

Lemma hook_refreshData_frame (host : UseStepCounter.Host) (h : UseStepCounter.Hook) :
  let data :=
    fst (ExpoPedometerAdapter.getTodaySteps (UseStepCounter.env host)
           (UseStepCounter.world h)) in
  let h' := UseStepCounter.refreshData host h in
  UseStepCounter.todaySteps h' = Some data
  /\ UseStepCounter.steps h' = StepData.steps data
  /\ UseStepCounter.distance h' = StepData.distance data
  /\ UseStepCounter.calories h' = StepData.calories data
  /\ UseStepCounter.activeMinutes h' = StepData.activeMinutes data
  /\ UseStepCounter.error h' = None
  /\ UseStepCounter.isCountingSteps h' = UseStepCounter.isCountingSteps h
  /\ UseStepCounter.isAvailable h' = UseStepCounter.isAvailable h
  /\ UseStepCounter.hasPermission h' = UseStepCounter.hasPermission h
  /\ UseStepCounter.sensorService h' = UseStepCounter.sensorService h
  /\ UseStepCounter.cleanupFn h' = UseStepCounter.cleanupFn h
  /\ UseStepCounter.probes h' = UseStepCounter.probes h.
Proof.
  cbv zeta. unfold UseStepCounter.refreshData.
  destruct (ExpoPedometerAdapter.getTodaySteps _ _) as [data w].
  repeat split.
Qed.

Lemma hook_initial_coherent (w : World) (p : nat) :
  hookCoherent (UseStepCounter.initial w p).
Proof. split; [reflexivity | now split]. Qed.

Lemma hook_startCounting_coherent (c : UseStepCounter.Captured)
  (h : UseStepCounter.Hook) :
  hookCoherent h -> hookCoherent (UseStepCounter.startCounting c h).
Proof.
  intros [H1 H2]. unfold UseStepCounter.startCounting.
  destruct (negb (UseStepCounter.capturedIsAvailable c)
            || negb (UseStepCounter.capturedHasPermission c)).
  - split; [exact H1 | exact H2].
  - destruct (UseStepCounter.capturedIsCountingSteps c).
    + split; [exact H1 | exact H2].
    + unfold hookCoherent. hook_cells. split; [reflexivity|].
      eapply (expo_start_single (UseStepCounter.sensorService h)). exact H2.
Qed.

Lemma hook_stopCounting_coherent (h : UseStepCounter.Hook) :
  hookCoherent h -> hookCoherent (UseStepCounter.stopCounting h).
Proof.
  intros [H1 H2]. unfold UseStepCounter.stopCounting.
  pose proof (expo_stop_single _ _ H2) as Hs.
  unfold hookCoherent. hook_cells.
  destruct (UseStepCounter.cleanupFn h) eqn:E; hook_cells.
  - split; [reflexivity|]. eapply expo_cleanup_single. exact Hs.
  - split; [exact E | exact Hs].
Qed.

Lemma hook_refreshData_coherent (host : UseStepCounter.Host)
  (h : UseStepCounter.Hook) :
  hookCoherent h -> hookCoherent (UseStepCounter.refreshData host h).
Proof.
  intros [H1 H2]. unfold hookCoherent.
  destruct (hook_refreshData_frame host h)
    as (_ & _ & _ & _ & _ & _ & -> & _ & _ & -> & -> & _).
  now split.
Qed.

Lemma hook_requestPermissions_coherent (host : UseStepCounter.Host)
  (h : UseStepCounter.Hook) :
  hookCoherent h -> hookCoherent (snd (UseStepCounter.requestPermissions host h)).
Proof. intros [H1 H2]. split; [exact H1 | exact H2]. Qed.

Lemma fold_onUpdate_frame (es : list Emission) (h : UseStepCounter.Hook) :
  let h' := fold_left (fun h e => UseStepCounter.onUpdate (snd e) h) es h in
  UseStepCounter.steps h'
  = last (map (fun e => StepUpdate.steps (snd e)) es) (UseStepCounter.steps h)
  /\ UseStepCounter.distance h' = UseStepCounter.distance h
  /\ UseStepCounter.calories h' = UseStepCounter.calories h
  /\ UseStepCounter.activeMinutes h' = UseStepCounter.activeMinutes h
  /\ UseStepCounter.todaySteps h' = UseStepCounter.todaySteps h
  /\ UseStepCounter.error h' = UseStepCounter.error h
  /\ UseStepCounter.isCountingSteps h' = UseStepCounter.isCountingSteps h
  /\ UseStepCounter.isAvailable h' = UseStepCounter.isAvailable h
  /\ UseStepCounter.hasPermission h' = UseStepCounter.hasPermission h
  /\ UseStepCounter.sensorService h' = UseStepCounter.sensorService h
  /\ UseStepCounter.cleanupFn h' = UseStepCounter.cleanupFn h.
Proof.
  cbv zeta. revert h. induction es as [|e es IH]; intros h; [repeat split|].
  cbn [fold_left map]. rewrite last_cons_default.
  destruct (IH (UseStepCounter.onUpdate (snd e) h))
    as (-> & -> & -> & -> & -> & -> & -> & -> & -> & -> & ->).
  repeat split.
Qed.

Lemma hook_notified_coherent (host : UseStepCounter.Host) (count : number)
  (h : UseStepCounter.Hook) :
  hookCoherent h -> hookCoherent (UseStepCounter.notified host count h).
Proof.
  intros [H1 H2]. unfold UseStepCounter.notified.
  pose proof (expo_notify_single (UseStepCounter.env host) _ _ count
                (UseStepCounter.world h) H2) as [Hn _].
  destruct (ExpoPedometerAdapter.notify _ count _ _) as [[es service] w].
  cbn [fst snd] in Hn. unfold hookCoherent.
  match goal with
  | |- context [fold_left ?f es ?h0] =>
      destruct (fold_onUpdate_frame es h0)
        as (_ & _ & _ & _ & _ & _ & -> & _ & _ & -> & ->)
  end.
  hook_cells. split; [exact H1 | exact Hn].
Qed.

Lemma hook_checkAvailability_coherent (host : UseStepCounter.Host)
  (autoStart : bool) (h : UseStepCounter.Hook) :
  hookCoherent h -> hookCoherent (UseStepCounter.checkAvailability host autoStart h).
Proof.
  intros H. unfold UseStepCounter.checkAvailability, UseStepCounter.probe,
    UseStepCounter.askPermission.
  destruct (negb (SensorAvailability.isAvailable _)); [exact H|].
  destruct (negb (SensorPermission.granted _)); [exact H|].
  destruct autoStart.
  - apply hook_startCounting_coherent, hook_refreshData_coherent. exact H.
  - apply hook_refreshData_coherent. exact H.
Qed.

Lemma hook_run_coherent (host : UseStepCounter.Host) (autoStart : bool)
  (ops : list HookOp) (w : World) (p : nat) :
  hookCoherent (hookRun host autoStart ops w p).
Proof.
  unfold hookRun.
  generalize (hook_checkAvailability_coherent host autoStart _
                (hook_initial_coherent w p)).
  generalize (UseStepCounter.checkAvailability host autoStart
                (UseStepCounter.initial w p)).
  induction ops as [|op ops IH]; intros h H; [exact H|].
  cbn [fold_left]. apply IH.
  destruct op; cbn [hookExec].
  - now apply hook_startCounting_coherent.
  - now apply hook_stopCounting_coherent.
  - now apply hook_refreshData_coherent.
  - now apply hook_requestPermissions_coherent.
  - now apply hook_notified_coherent.
Qed.

(** X20. Mounting the hook on a device whose pedometer is there sets
    [isAvailable] and [hasPermission], and fills today's steps, distance,
    calories and active minutes from one [getTodaySteps()]. It does not start
    counting, with [autoStart] or without: the [startCounting] the effect
    calls is the first render's, which still sees [isAvailable] and
    [hasPermission] false, so it only sets the error. A [startCounting] of
    the render that follows does subscribe the hook's callback and clears the
    error. *)
Theorem hook_mount_refreshes_without_starting
  (host : UseStepCounter.Host) (autoStart : bool) (w : World) (p : nat) :
  UseStepCounter.isAvailableAsync host p = Resolves true ->
  UseStepCounter.isAvailableAsync host (S p) = Resolves true ->
  let h := UseStepCounter.checkAvailability host autoStart
             (UseStepCounter.initial w p) in
  let data := fst (ExpoPedometerAdapter.getTodaySteps (UseStepCounter.env host) w) in
  UseStepCounter.isAvailable h = true
  /\ UseStepCounter.hasPermission h = true
  /\ UseStepCounter.todaySteps h = Some data
  /\ UseStepCounter.steps h = StepData.steps data
  /\ UseStepCounter.distance h = StepData.distance data
  /\ UseStepCounter.calories h = StepData.calories data
  /\ UseStepCounter.activeMinutes h = StepData.activeMinutes data
  /\ UseStepCounter.isCountingSteps h = false
  /\ ExpoPedometerAdapter.listeners (UseStepCounter.sensorService h) = []
  /\ UseStepCounter.error h
     = (if autoStart
        then Some (lit "Sensor not available or permission not granted")
        else None)
  /\ let h2 := UseStepCounter.startCounting (UseStepCounter.render h) h in
     UseStepCounter.isCountingSteps h2 = true
     /\ map snd (ExpoPedometerAdapter.listeners (UseStepCounter.sensorService h2))
        = [UseStepCounter.hookCallback]
     /\ UseStepCounter.error h2 = None.
Proof.
  intros H1 H2. cbv zeta.
  unfold UseStepCounter.checkAvailability, UseStepCounter.probe,
    UseStepCounter.askPermission.
  hook_cells. rewrite H1, H2. cbn [ExpoPedometerAdapter.isAvailable
    ExpoPedometerAdapter.requestPermissions SensorAvailability.isAvailable
    SensorPermission.granted negb].
  set (h0 := UseStepCounter.setHasPermission true _).
  pose proof (hook_refreshData_frame host h0) as F. cbv zeta in F.
  change (UseStepCounter.world h0) with w in F.
  destruct F as (F1 & F2 & F3 & F4 & F5 & F6 & F7 & F8 & F9 & F10 & F11 & F12).
  assert (forall h,
             UseStepCounter.startCounting UseStepCounter.firstRender h
             = UseStepCounter.setError
                 (Some (lit "Sensor not available or permission not granted")) h)
    as Estale by reflexivity.
  destruct autoStart; rewrite ?Estale; hook_cells;
    rewrite F1, F2, F3, F4, F5, F7, F8, F9, F10;
    (split; [reflexivity|]); (split; [reflexivity|]);
    repeat (split; [reflexivity|]);
    unfold UseStepCounter.startCounting, UseStepCounter.render; hook_cells;
    rewrite ?F7, ?F8, ?F9; cbn [UseStepCounter.capturedIsAvailable
      UseStepCounter.capturedHasPermission UseStepCounter.capturedIsCountingSteps
      negb orb]; hook_cells; rewrite ?F6, ?F10; repeat split.
Qed.

Lemma hook_mount_refreshes_without_starting_witness :
  let h := UseStepCounter.checkAvailability sampleHost true
             (UseStepCounter.initial startWorld 0) in
  UseStepCounter.isAvailable h = true
  /\ UseStepCounter.isCountingSteps h = false
  /\ UseStepCounter.error h
     = Some (lit "Sensor not available or permission not granted").
Proof.
  cbv zeta.
  destruct (hook_mount_refreshes_without_starting sampleHost true startWorld 0
              eq_refl eq_refl)
    as (H1 & _ & _ & _ & _ & _ & _ & H8 & _ & H10 & _).
  split; [exact H1|]. split; [exact H8 | exact H10].
Defined.

(** X21. Mounting the hook on a device whose pedometer is not there, or
    whose probe rejects, leaves [isAvailable] and [hasPermission] false and
    sets a non-empty error; it asks for no permission, fetches no steps and
    registers no listener. *)
Theorem hook_mount_without_sensor
  (host : UseStepCounter.Host) (autoStart : bool) (w : World) (p : nat) :
  UseStepCounter.isAvailableAsync host p <> Resolves true ->
  let h := UseStepCounter.checkAvailability host autoStart
             (UseStepCounter.initial w p) in
  UseStepCounter.isAvailable h = false
  /\ UseStepCounter.hasPermission h = false
  /\ (exists c r, UseStepCounter.error h = Some (c :: r))
  /\ UseStepCounter.todaySteps h = None
  /\ UseStepCounter.world h = w
  /\ UseStepCounter.probes h = S p
  /\ UseStepCounter.isCountingSteps h = false
  /\ ExpoPedometerAdapter.listeners (UseStepCounter.sensorService h) = [].
Proof.
  intros H. cbv zeta.
  unfold UseStepCounter.checkAvailability, UseStepCounter.probe. hook_cells.
  destruct (UseStepCounter.isAvailableAsync host p) as [[|]|[|c r]|];
    try congruence;
    cbn [ExpoPedometerAdapter.isAvailable SensorAvailability.isAvailable
           SensorAvailability.error negb UseStepCounter.errorOr];
    hook_cells; repeat split; eexists _, _; reflexivity.
Qed.

Lemma hook_mount_without_sensor_witness :
  let h := UseStepCounter.checkAvailability
             {| UseStepCounter.env := sampleEnv;
                UseStepCounter.isAvailableAsync := fun _ => RejectsOther |}
             true (UseStepCounter.initial startWorld 0) in
  UseStepCounter.isAvailable h = false
  /\ UseStepCounter.error h = Some (lit "Unknown error").
Proof.
  cbv zeta.
  destruct (hook_mount_without_sensor
              {| UseStepCounter.env := sampleEnv;
                 UseStepCounter.isAvailableAsync := fun _ => RejectsOther |}
              true startWorld 0)
    as (H1 & _).
  - discriminate.
  - split; [exact H1 | reflexivity].
Defined.

(** X22. After mounting and any sequence of [startCounting] (of the current
    render or of a stale one), [stopCounting], [refreshData],
    [requestPermissions] and pedometer reports, the hook's adapter has one
    listener, the hook's callback, exactly when [isCountingSteps] is true,
    and none otherwise. [stopCounting] then leaves no listener and
    [isCountingSteps] false, and unmounting leaves no listener. *)
Theorem hook_counts_iff_one_listener
  (host : UseStepCounter.Host) (autoStart : bool) (ops : list HookOp)
  (w : World) (p : nat) :
  let h := hookRun host autoStart ops w p in
  map snd (ExpoPedometerAdapter.listeners (UseStepCounter.sensorService h))
  = (if UseStepCounter.isCountingSteps h then [UseStepCounter.hookCallback] else [])
  /\ UseStepCounter.cleanupFn h = UseStepCounter.isCountingSteps h
  /\ ExpoPedometerAdapter.listeners
       (UseStepCounter.sensorService (UseStepCounter.stopCounting h)) = []
  /\ UseStepCounter.isCountingSteps (UseStepCounter.stopCounting h) = false
  /\ ExpoPedometerAdapter.listeners
       (UseStepCounter.sensorService (UseStepCounter.unmount h)) = [].
Proof.
  cbv zeta.
  pose proof (hook_run_coherent host autoStart ops w p) as H.
  set (h := hookRun host autoStart ops w p) in *.
  pose proof (hook_stopCounting_coherent h H) as [S1 S2].
  destruct H as [H1 H2].
  assert (UseStepCounter.isCountingSteps (UseStepCounter.stopCounting h) = false)
    as Hstop.
  { unfold UseStepCounter.stopCounting.
    destruct (UseStepCounter.cleanupFn _); reflexivity. }
  rewrite Hstop in S2. destruct S2 as [_ S2].
  split; [|split; [exact H1|split; [exact S2|split; [exact Hstop|]]]].
  - destruct (UseStepCounter.isCountingSteps h); simpl in H2.
    + destruct H2 as (k & _ & ->). reflexivity.
    + destruct H2 as [_ ->]. reflexivity.
  - unfold UseStepCounter.unmount. rewrite H1.
    destruct (UseStepCounter.isCountingSteps h); hook_cells.
    + apply (expo_cleanup_single _ _ H2).
    + apply H2.
Qed.

(** X23. A pedometer report changes the hook's [steps] only, and only while
    it counts: [distance], [calories], [activeMinutes] and [todaySteps] keep
    the values of the last refresh, so between refreshes they are those of
    older steps. *)
Theorem hook_update_changes_steps_only
  (host : UseStepCounter.Host) (autoStart : bool) (ops : list HookOp)
  (w : World) (p : nat) (count : number) :
  let h := hookRun host autoStart ops w p in
  let h' := UseStepCounter.notified host count h in
  UseStepCounter.steps h'
  = (if UseStepCounter.isCountingSteps h then count else UseStepCounter.steps h)
  /\ UseStepCounter.distance h' = UseStepCounter.distance h
  /\ UseStepCounter.calories h' = UseStepCounter.calories h
  /\ UseStepCounter.activeMinutes h' = UseStepCounter.activeMinutes h
  /\ UseStepCounter.todaySteps h' = UseStepCounter.todaySteps h
  /\ UseStepCounter.error h' = UseStepCounter.error h
  /\ UseStepCounter.isCountingSteps h' = UseStepCounter.isCountingSteps h.
Proof.
  cbv zeta.
  pose proof (hook_run_coherent host autoStart ops w p) as [H1 H2].
  set (h := hookRun host autoStart ops w p) in *.
  unfold UseStepCounter.notified.
  assert (exists es,
             fst (fst (ExpoPedometerAdapter.notify (UseStepCounter.env host) count
                         (UseStepCounter.sensorService h) (UseStepCounter.world h)))
             = es
             /\ last (map (fun e => StepUpdate.steps (snd e)) es)
                  (UseStepCounter.steps h)
                = (if UseStepCounter.isCountingSteps h then count
                   else UseStepCounter.steps h)) as (es & Ees & Hlast).
  { eexists. split; [reflexivity|].
    destruct (UseStepCounter.isCountingSteps h); simpl in H2.
    - destruct H2 as (k & _ & Hl).
      destruct (expo_notify_one (UseStepCounter.env host) _ k _ count
                  (UseStepCounter.world h) Hl)
        as (u & s' & w' & E & Hu & _).
      rewrite E. cbn. exact Hu.
    - destruct H2 as [_ Hl]. unfold ExpoPedometerAdapter.notify, bind, ret.
      rewrite Hl. reflexivity. }
  destruct (ExpoPedometerAdapter.notify _ count _ _) as [[es' service] w'].
  cbn [fst] in Ees. subst es'.
  match goal with
  | |- context [fold_left ?f es ?h0] =>
      destruct (fold_onUpdate_frame es h0)
        as (-> & -> & -> & -> & -> & -> & -> & _)
  end.
  hook_cells. rewrite Hlast. repeat split.
Qed.
